(** * BM25_PLUS: the sparse retriever of [retrieval/BM25Retrieval.py]

    A shallow embedding of the class [BM25_PLUS] and of the few numpy,
    pickle and os.path operations its methods call, followed by the
    properties of the retriever that the specification talks about.

    Conventions of the embedding.
    - float64 scores are the rationals they denote ([Q]); comparisons
      are [Qle_bool], the test [!= 0] is [Qeq_bool].
    - A method of the class is a computation in the monad [M]: it reads
      and updates a [world] (the object [self], the files on disk, the
      log of the calls made so far) and either returns a value or raises
      a Python exception ([exn]).  The world survives an exception, as in
      Python.
    - Printing, [tqdm] progress bars and the [timer] context manager have
      no effect on values and are left out. *)

From Stdlib Require Import QArith Lqa Ascii String.
From stdpp Require Import gmap strings list sorting.

Local Open Scope Q_scope.

(** ** numpy on one-dimensional arrays *)

Module np.

(** [np.sum(a)] *)
Definition sum (a : list Q) : Q := foldr Qplus 0 a.

(** One step of an ascending insertion sort on keyed entries: [x] goes
    in front of the first entry whose key is not smaller, so entries
    that came earlier in the array stay in front of equal ones. *)
Fixpoint insert {A} (key : A → Q) (x : A) (l : list A) : list A :=
  match l with
  | [] => [x]
  | y :: l' => if Qle_bool (key x) (key y) then x :: y :: l'
               else y :: insert key x l'
  end.

Definition isort {A} (key : A → Q) (l : list A) : list A :=
  foldr (insert key) [] l.

(** [np.sort(a)]: the values in ascending order. *)
Definition sort (a : list Q) : list Q := isort id a.

(** [enumerate(a)] as a list of (position, value). *)
Definition enumerate {A} (a : list A) : list (nat * A) :=
  zip (seq 0 (length a)) a.

(** [np.argsort(a)]: the positions of [a] in ascending order of value,
    positions of equal values in increasing order.  numpy does not
    promise an order among equal values for its default sort; this is
    the order that its insertion sort gives on short arrays, and the one
    that a stable sort gives on all. *)
Definition argsort (a : list Q) : list nat :=
  (isort snd (enumerate a)).*1.

End np.

(** ** Python slices and indexing *)

(** [l[:k]] for an integer [k]: the first [k] items, and for a negative
    [k] all but the last [-k]. *)
Definition slice_to {A} (l : list A) (k : Z) : list A :=
  if (0 <=? k)%Z then take (Z.to_nat k) l
  else take (length l - Z.to_nat (- k)) l.

(** [range(n)] *)
Definition range (n : Z) : list nat := seq 0 (Z.to_nat n).

(** ** Top-k selection

    Lines 156-159 of [get_relevant_doc], repeated at lines 193-197 of
    [get_relevant_doc_bulk]:
<<
    sorted_score = np.sort(query_scores)[::-1]
    sorted_id = np.argsort(query_scores)[::-1]
    doc_score = sorted_score[:k]
    doc_indices = sorted_id[:k]
>> *)
Definition top_k (query_scores : list Q) (k : Z) : list Q * list nat :=
  let sorted_score := reverse (np.sort query_scores) in
  let sorted_id := reverse (np.argsort query_scores) in
  let doc_score := slice_to sorted_score k in
  let doc_indices := slice_to sorted_id k in
  (doc_score, doc_indices).

(** ** Python values *)

(** Iterating over a [str] yields its characters, each a [str] of
    length one (here the characters are the bytes of the string, which
    is the same thing on ASCII text). *)
Fixpoint py_iter (s : string) : list string :=
  match s with
  | EmptyString => []
  | String c s' => String c EmptyString :: py_iter s'
  end.

(** [sep.join(l)] *)
Definition join (sep : string) (l : list string) : string :=
  String.concat sep l.

Fixpoint ends_with_slash (s : string) : bool :=
  match s with
  | EmptyString => false
  | String c EmptyString => bool_decide (c = "/"%char)
  | String _ s' => ends_with_slash s'
  end.

(** [os.path.join(a, b)] for a relative [b]. *)
Definition os_path_join (a b : string) : string :=
  if bool_decide (a = EmptyString) then b
  else if ends_with_slash a then (a +:+ b)%string
  else (a +:+ "/" +:+ b)%string.

(** The values held by the fields of a dataset record and of a row of
    the returned frame. *)
Inductive value :=
  | Str (s : string)
  | IntArray (a : list nat)
  | Answers (text : list string) (answer_start : list Z).

(** A [datasets.Dataset] as the sequence of its records, each a [dict]
    from column names to values.  The [pd.DataFrame] that [retrieve]
    returns is represented by the list of rows it is built from. *)
Abbreviation Dataset := (list (gmap string value)).

(** ** The index object *)

(** Modelled from the spec: the statistics that the built index holds
    (section 3, Term Statistics Index).  In the source they live inside
    the object that the [rank_bm25] package builds, and that package is
    not among the sources. *)
Record Index := {
  doc_term_freq : list (gmap string nat);
  doc_length : list nat;
  doc_freq : gmap string nat;
  avg_doc_length : Q;
  corpus_size : nat
}.

(** The object stored in [self.bm25]: its statistics and its method
    [get_scores], which maps a sequence of tokens to one score per
    document. *)
Record BM25 := {
  statistics : Index;
  get_scores : list string → list Q
}.

(** What [pickle.load] can give back. *)
Inductive pyobj :=
  | ObjBM25 (b : BM25)
  | ObjScores (l : list (list Q))
  | ObjIndices (l : list (list nat)).

(** A regular file: either a complete pickle, or a file that was opened
    for writing and whose pickle is not (yet) completely written. *)
Inductive file :=
  | Truncated
  | Pickle (o : pyobj).

(** ** Exceptions *)

(** The two [assert] statements of the class, by their message:
    line 96, "get_sparse_embedding() must be run first", and lines 152
    and 198, "this usually happens when the query holds only words that
    are not in the vocabulary". *)
Inductive assertion :=
  | MustBuildFirst
  | NoVocabMatch.

Inductive exn :=
  | AssertionError (a : assertion)
  | AttributeError
  | KeyError (key : string)
  | IndexError
  | TypeError
  | EOFError
  | FileNotFoundError
  | EmptyCorpusError.

(** ** The world of a retriever *)

(** The fields of [self] that the methods use.  [bm25] is [None] until
    [get_sparse_embedding] has assigned it. *)
Record BM25_PLUS := {
  tokenize_fn : string → list string;
  data_path : string;
  wiki_text : list string;
  wiki_title : list string;
  bm25 : option pyobj
}.

(** The calls that leave the class: file operations, the tokenizer, the
    index constructor and the scorer. *)
Inductive event :=
  | EvLoad (path : string)
  | EvOpenW (path : string)
  | EvDump (path : string) (o : pyobj)
  | EvTokenize (text : string)
  | EvBuild (tokenized_corpus : list (list string))
  | EvGetScores (query : list string).

Record world := {
  self : BM25_PLUS;
  fs : gmap string file;
  trace : list event
}.

(** A computation: from a world to an exception or a value, and the
    world it leaves. *)
Definition M (A : Type) : Type := world → (exn + A) * world.

Definition ret {A} (a : A) : M A := λ w, (inr a, w).

Definition raise {A} (e : exn) : M A := λ w, (inl e, w).

Definition bind {A B} (m : M A) (k : A → M B) : M B :=
  λ w, match m w with
       | (inr a, w') => k a w'
       | (inl e, w') => (inl e, w')
       end.

Notation "'let*' x := m 'in' k" := (bind m (λ x, k))
  (at level 10, x pattern, m at level 100, k at level 200, only parsing).
Notation "m ;; k" := (bind m (λ _, k))
  (at level 100, k at level 200, right associativity, only parsing).

(** [for x in l: ...], collecting what each round produces. *)
Fixpoint for_each {A B} (body : A → M B) (l : list A) : M (list B) :=
  match l with
  | [] => ret []
  | x :: l' =>
      let* y := body x in
      let* ys := for_each body l' in
      ret (y :: ys)
  end.

Definition assert (b : bool) (a : assertion) : M unit :=
  if b then ret tt else raise (AssertionError a).

Definition get_self : M BM25_PLUS := λ w, (inr (self w), w).

Definition log (e : event) : M unit :=
  λ w, (inr tt, {| self := self w; fs := fs w; trace := trace w ++ [e] |}).

(** [self.bm25 = o] *)
Definition set_bm25 (o : pyobj) : M unit :=
  λ w, (inr tt,
        {| self := {| tokenize_fn := tokenize_fn (self w);
                      data_path := data_path (self w);
                      wiki_text := wiki_text (self w);
                      wiki_title := wiki_title (self w);
                      bm25 := Some o |};
           fs := fs w; trace := trace w |}).

Definition write_file (path : string) (f : file) : M unit :=
  λ w, (inr tt, {| self := self w; fs := <[path := f]> (fs w); trace := trace w |}).

(** [os.path.isfile(path)] *)
Definition os_path_isfile (path : string) : M bool :=
  λ w, (inr (bool_decide (is_Some (fs w !! path))), w).

(** [with open(path, "rb") as file: pickle.load(file)] *)
Definition pickle_load (path : string) : M pyobj :=
  log (EvLoad path) ;;
  λ w, match fs w !! path with
       | Some (Pickle o) => (inr o, w)
       | Some Truncated => (inl EOFError, w)
       | None => (inl FileNotFoundError, w)
       end.

(** [open(path, "wb")]: the file is created, or emptied if it exists. *)
Definition open_wb (path : string) : M unit :=
  log (EvOpenW path) ;; write_file path Truncated.

(** [pickle.dump(o, file)] on the file opened at [path], up to the
    close of the [with] block. *)
Definition pickle_dump (path : string) (o : pyobj) : M unit :=
  log (EvDump path o) ;; write_file path (Pickle o).

(** [self.tokenize_fn(text)] *)
Definition call_tokenize_fn (text : string) : M (list string) :=
  let* self := get_self in
  log (EvTokenize text) ;;
  ret (tokenize_fn self text).

(** [self.bm25.get_scores(query)]; [None] and the other objects have no
    such method. *)
Definition call_get_scores (query : list string) : M (list Q) :=
  let* self := get_self in
  match bm25 self with
  | Some (ObjBM25 b) => log (EvGetScores query) ;; ret (get_scores b query)
  | _ => raise AttributeError
  end.

(** [l[i]] *)
Definition index {A} (l : list A) (i : nat) : M A :=
  match l !! i with
  | Some x => ret x
  | None => raise IndexError
  end.

(** [d[key]] *)
Definition getitem (d : gmap string value) (key : string) : M value :=
  match d !! key with
  | Some v => ret v
  | None => raise (KeyError key)
  end.

(** ** The class [BM25_PLUS] *)

(** [__init__], as far as the fields used here go: the corpus columns,
    the tokenizer and the data path are stored and [self.bm25] starts as
    [None] (line 46).  No file is read or written by the methods before
    their first call. *)
Definition init (tok : string → list string) (path : string)
    (titles texts : list string) (files : gmap string file) : world :=
  {| self := {| tokenize_fn := tok; data_path := path;
                wiki_text := texts; wiki_title := titles; bm25 := None |};
     fs := files; trace := [] |}.

Section get_sparse_embedding.

(** The constructor [BM25Plus(tokenized_corpus)] of the scoring
    library: it returns the index object or raises. *)
Variable BM25Plus : list (list string) → exn + BM25.

Definition call_BM25Plus (tokenized_corpus : list (list string)) : M BM25 :=
  log (EvBuild tokenized_corpus) ;;
  match BM25Plus tokenized_corpus with
  | inr b => ret b
  | inl e => raise e
  end.

(** Lines 47-72. *)
Definition get_sparse_embedding : M unit :=
  let* self := get_self in
  let pickle_name := "bm25.bin" in
  let emd_path := os_path_join (data_path self) pickle_name in
  let* isfile := os_path_isfile emd_path in
  if (isfile : bool) then
    let* o := pickle_load emd_path in
    set_bm25 o
  else
    let* tokenized_corpus :=
      for_each (λ '(title, text), call_tokenize_fn (title +:+ text))
               (zip (wiki_title self) (wiki_text self)) in
    let* b := call_BM25Plus tokenized_corpus in
    set_bm25 (ObjBM25 b) ;;
    open_wb emd_path ;;
    pickle_dump emd_path (ObjBM25 b).

End get_sparse_embedding.

(** Lines 138-160.  The raw [query] string is what [get_scores]
    receives; the library iterates over it. *)
Definition get_relevant_doc (query : string) (k : Z) : M (list Q * list nat) :=
  let* query_scores := call_get_scores (py_iter query) in
  assert (negb (Qeq_bool (np.sum query_scores) 0)) NoVocabMatch ;;
  ret (top_k query_scores k).

(** [self.tokenize_fn(query)] on an item of the query list; the
    tokenizer takes a [str]. *)
Definition tokenize_query (query : value) : M (list string) :=
  match query with
  | Str s => call_tokenize_fn s
  | _ => raise TypeError
  end.

(** Lines 162-208. *)
Definition get_relevant_doc_bulk (queries : list value) (k : Z) : M (pyobj * pyobj) :=
  let* self := get_self in
  let score_path := os_path_join (data_path self) "BM25_score.bin" in
  let indice_path := os_path_join (data_path self) "BM25_indice.bin" in
  let* has_score := os_path_isfile score_path in
  let* has_indice := os_path_isfile indice_path in
  if (has_score : bool) && (has_indice : bool) then
    let* doc_scores := pickle_load score_path in
    let* doc_indices := pickle_load indice_path in
    ret (doc_scores, doc_indices)
  else
    let* found :=
      for_each (λ query,
                  let* tokenized_query := tokenize_query query in
                  let* query_scores := call_get_scores tokenized_query in
                  ret (top_k query_scores k))
               queries in
    let doc_scores := found.*1 in
    let doc_indices := found.*2 in
    assert (negb (Qeq_bool (np.sum (concat doc_scores)) 0)) NoVocabMatch ;;
    open_wb score_path ;;
    pickle_dump score_path (ObjScores doc_scores) ;;
    open_wb indice_path ;;
    pickle_dump indice_path (ObjIndices doc_indices) ;;
    ret (ObjScores doc_scores, ObjIndices doc_indices).

(** What [retrieve] is called with: a [str], a [Dataset], or anything
    else Python lets through. *)
Inductive other :=
  | PyNone
  | PyInt (n : Z)
  | PyList (l : list string).

Inductive query_or_dataset :=
  | AStr (query : string)
  | ADataset (d : Dataset)
  | AOther (o : other).

(** What [retrieve] returns: the pair of the single-query branch, the
    frame of the batch branch, or [None] when the body falls off its
    end. *)
Inductive retrieved :=
  | Passages (doc_scores : list Q) (texts : list string)
  | DataFrame (rows : list (gmap string value))
  | ReturnsNone.

(** [dataset["question"]]: the column, which every record must have. *)
Definition column (d : Dataset) (key : string) : M (list value) :=
  for_each (λ example, getitem example key) d.

(** [doc_indices[idx]] on what [get_relevant_doc_bulk] returned. *)
Definition indices_at (doc_indices : pyobj) (idx : nat) : M (list nat) :=
  match doc_indices with
  | ObjIndices l => index l idx
  | _ => raise TypeError
  end.

(** [key in d.keys()] *)
Definition in_keys (key : string) (d : gmap string value) : bool :=
  bool_decide (is_Some (d !! key)).

(** Lines 119-133: the row built for one record of the dataset. *)
Definition make_row (wiki : list string) (doc_indices : pyobj)
    (idx : nat) (example : gmap string value) : M (gmap string value) :=
  let* question := getitem example "question" in
  let* id := getitem example "id" in
  let* context_id := indices_at doc_indices idx in
  let* passages := for_each (λ pid, index wiki pid) context_id in
  let tmp : gmap string value :=
    <["context" := Str (join " " passages)]>
      (<["context_id" := IntArray context_id]>
        (<["id" := id]> (<["question" := question]> ∅))) in
  if in_keys "context" example && in_keys "answers" example then
    let* context := getitem example "context" in
    let* answers := getitem example "answers" in
    ret (<["answers" := answers]> (<["original_context" := context]> tmp))
  else ret tmp.

(** Lines 74-136. *)
Definition retrieve (arg : query_or_dataset) (topk : Z) : M retrieved :=
  let* self := get_self in
  assert (bool_decide (is_Some (bm25 self))) MustBuildFirst ;;
  match arg with
  | AStr query =>
      let* (doc_scores, doc_indices) := get_relevant_doc query topk in
      for_each (λ i,
                  let* score := index doc_scores i in
                  let* pid := index doc_indices i in
                  index (wiki_text self) pid)
               (range topk) ;;
      let* texts :=
        for_each (λ i,
                    let* pid := index doc_indices i in
                    index (wiki_text self) pid)
                 (range topk) in
      ret (Passages doc_scores texts)
  | ADataset d =>
      let* questions := column d "question" in
      let* (doc_scores, doc_indices) := get_relevant_doc_bulk questions topk in
      let* total :=
        for_each (λ '(idx, example),
                    make_row (wiki_text self) doc_indices idx example)
                 (np.enumerate d) in
      ret (DataFrame total)
  | AOther _ => ret ReturnsNone
  end.

(** ** The index builder *)

(** Modelled from the spec: the per-document term counts of section
    4.1; the builder of the [rank_bm25] package is not among the
    sources. *)
Definition term_counts (doc : list string) : gmap string nat :=
  foldr (λ t m, <[t := S (default 0%nat (m !! t))]> m) ∅ doc.

(** Modelled from the spec: the update of the document frequencies of
    section 4.1, each term of a document counted once whatever its
    number of occurrences there. *)
Definition count_once (tf df : gmap string nat) : gmap string nat :=
  union_with (λ a b, Some (a + b)%nat) ((λ _, 1%nat) <$> tf) df.

(** Modelled from the spec: the statistics of section 4.1 for a
    tokenized corpus, the average length being the total length divided
    by the corpus size. *)
Definition statistics_of (tokenized_corpus : list (list string)) : Index :=
  let freqs := term_counts <$> tokenized_corpus in
  let lengths := length <$> tokenized_corpus in
  {| doc_term_freq := freqs;
     doc_length := lengths;
     doc_freq := foldr count_once ∅ freqs;
     avg_doc_length :=
       inject_Z (Z.of_nat (sum_list lengths))
       / inject_Z (Z.of_nat (length tokenized_corpus));
     corpus_size := length tokenized_corpus |}.

(** Modelled from the spec: the index builder [build] of section 4.1,
    which the source obtains from the constructor [BM25Plus] of the
    [rank_bm25] package; that package is not among the sources.  The
    builder accumulates per-document term counts, document lengths and
    document frequencies, divides the total length by the corpus size,
    and fails with [EmptyCorpusError] on a corpus of zero documents.
    The scoring function of the built object is a parameter. *)
Definition build (score : Index → list string → list Q)
    (tokenized_corpus : list (list string)) : exn + BM25 :=
  match tokenized_corpus with
  | [] => inl EmptyCorpusError
  | _ :: _ =>
      let stats := statistics_of tokenized_corpus in
      inr {| statistics := stats; get_scores := score stats |}
  end.

(** ** A two-document corpus for the examples *)

Module demo.

Definition titles : list string := ["Cats "; "Dogs "].
Definition texts : list string := ["a cat sat"; "b dog ran"].

(** Whitespace tokenizer. *)
Definition tok : string → list string := String.words.

(** A stand-in for the scorer of the library: the number of query
    tokens, with repetitions, that a document contains.  As with
    BM25+, a document sharing no token with the query scores zero. *)
Definition score (idx : Index) (query : list string) : list Q :=
  (λ tf : gmap string nat,
     inject_Z (Z.of_nat
       (length (filter (λ t, is_Some (tf !! t)) query))))
  <$> doc_term_freq idx.

Definition index_object : BM25 :=
  {| statistics := statistics_of (tok <$> zip_with String.append titles texts);
     get_scores := score (statistics_of (tok <$> zip_with String.append titles texts)) |}.

(** A retriever right after [__init__], on an empty data directory. *)
Definition fresh : world := init tok "data/" titles texts ∅.

(** The same retriever once [get_sparse_embedding] has run. *)
Definition ready : world := (get_sparse_embedding (build score) fresh).2.

(** A one-record validation set, with ground truth. *)
Definition validation : Dataset :=
  [ {[ "question" := Str "dog"; "id" := Str "q0";
       "context" := Str "b dog ran";
       "answers" := Answers ["dog"] [2%Z] ]} ].

(** A record that has a [context] column and no [answers]. *)
Definition test_record : gmap string value :=
  {[ "question" := Str "dog"; "id" := Str "q1"; "context" := Str "b dog ran" ]}.

(** The same retriever after a first batch run has left its two cache
    files behind. *)
Definition cached : world := (get_relevant_doc_bulk [Str "dog"] 1 ready).2.

End demo.

(** ** The vocabulary of the properties *)

(** The order in which [np.argsort] leaves its entries: ascending by
    value, and by position among equal values. *)
Definition before (p q : nat * Q) : Prop :=
  p.2 < q.2 ∨ (p.2 == q.2 ∧ (p.1 < q.1)%nat).

(** The sorted entries of an array: [np.argsort] and [np.sort] are its
    two projections. *)
Definition ascending (a : list Q) : list (nat * Q) :=
  np.isort snd (np.enumerate a).

(** The ranking of an array: its entries from the highest score down,
    cut after [n] entries. *)
Definition ranking (a : list Q) (n : nat) : list (nat * Q) :=
  take n (reverse (ascending a)).

(** The number of entries that [l[:k]] keeps of [n]. *)
Definition kept (n : nat) (k : Z) : nat :=
  if (0 <=? k)%Z then Z.to_nat k `min` n else n - Z.to_nat (- k).

(** What [top_k] is held to for a request of [n] entries: [n] entries
    or as many as there are documents, every position at most once and
    next to its own score, scores never increasing, and among equal
    scores the higher position first. *)
Definition ranked (a : list Q) (n : nat) (scores : list Q) (ids : list nat) : Prop :=
  length scores = n `min` length a
  ∧ length ids = n `min` length a
  ∧ NoDup ids
  ∧ (∀ r i, ids !! r = Some i → ∃ s, a !! i = Some s ∧ scores !! r = Some s)
  ∧ (∀ r r' s s', (r < r')%nat →
       scores !! r = Some s → scores !! r' = Some s' → s' <= s)
  ∧ (∀ r r' i i' s s', (r < r')%nat →
       ids !! r = Some i → ids !! r' = Some i' →
       a !! i = Some s → a !! i' = Some s' → s == s' → (i' < i)%nat).

(** The world after the calls [e] have been added to the log. *)
Definition logged (e : list event) (w : world) : world :=
  {| self := self w; fs := fs w; trace := trace w ++ e |}.

(** The two files of the batch cache (lines 175-176) and the file of
    the index cache (lines 57-58). *)
Definition score_path (w : world) : string :=
  os_path_join (data_path (self w)) "BM25_score.bin".

Definition indice_path (w : world) : string :=
  os_path_join (data_path (self w)) "BM25_indice.bin".

Definition emd_path (w : world) : string :=
  os_path_join (data_path (self w)) "bm25.bin".

(** The strings that a build tokenizes, one per document: title and
    text, joined without a separator. *)
Definition documents (w : world) : list string :=
  (λ '(title, text), title +:+ text) <$> zip (wiki_title (self w)) (wiki_text (self w)).

(** [tokenized_corpus] of line 67. *)
Definition tokenized_corpus (w : world) : list (list string) :=
  tokenize_fn (self w) <$> documents w.

(** The world after [self.bm25 = o]. *)
Definition with_bm25 (o : pyobj) (w : world) : world := (set_bm25 o w).2.




(** The same world with another tokenizer in [self.tokenize_fn]. *)
Definition with_tokenize_fn (tok : string → list string) (w : world) : world :=
  {| self := {| tokenize_fn := tok;
                data_path := data_path (self w);
                wiki_text := wiki_text (self w);
                wiki_title := wiki_title (self w);
                bm25 := bm25 (self w) |};
     fs := fs w; trace := trace w |}.

(** What the loop of lines 189-197 collects for a list of query
    strings: for each one the top-k of the scores of its tokens. *)
Definition batch_top_k (b : BM25) (tok : string → list string) (k : Z)
    (queries : list string) : list (list Q * list nat) :=
  (λ query, top_k (get_scores b (tok query)) k) <$> queries.

(** The calls that this loop makes, in order. *)
Definition batch_calls (tok : string → list string) (queries : list string) : list event :=
  queries ≫= (λ query, [EvTokenize query; EvGetScores (tok query)]).

(** Two worlds that differ at most in their log: the same [self] and
    the same files. *)
Definition quiet (w w' : world) : Prop := self w' = self w ∧ fs w' = fs w.

(** Two worlds with the same [self] and the same files, the two files
    of the batch cache apart. *)
Definition batch_frame (w w' : world) : Prop :=
  self w' = self w
  ∧ ∀ path, path ≠ score_path w → path ≠ indice_path w →
      fs w' !! path = fs w !! path.

(** The query strings of a dataset, record by record: what
    [dataset["question"]] holds when every question is a [str]. *)
Definition question_strings (d : Dataset) : list string :=
  omap (λ example : gmap string value,
          match example !! "question" with
          | Some (Str query) => Some query
          | _ => None
          end) d.

(** * Properties *)

(** ** Top-k on small arrays *)

Example top_k_ex1 : top_k [1; 3; 2] 2 = ([3; 2], [1; 2]%nat).
Proof. reflexivity. Qed.

Example top_k_ex2 : top_k [1; 1] 2 = ([1; 1], [1; 0]%nat).
Proof. reflexivity. Qed.

Example top_k_ex3 : top_k [3; 1; 2] (-1) = ([3; 2], [0; 2]%nat).
Proof. reflexivity. Qed.

(** ** Sorting *)

Lemma before_trans p q r : before p q → before q r → before p r.
Proof.
  unfold before. intros [H1|[H1 H1']] [H2|[H2 H2']].
  - left. lra.
  - left. lra.
  - left. lra.
  - right. split; [lra | lia].
Qed.

Lemma insert_Permutation {A} (key : A → Q) x l :
  np.insert key x l ≡ₚ x :: l.
Proof.
  induction l as [|y l IH]; simpl; [done|].
  destruct (Qle_bool (key x) (key y)); [done|].
  rewrite IH. apply Permutation_swap.
Qed.

Lemma isort_Permutation {A} (key : A → Q) l : np.isort key l ≡ₚ l.
Proof.
  induction l as [|x l IH]; simpl; [done|].
  rewrite insert_Permutation. by rewrite IH.
Qed.

Lemma insert_fmap_snd (p : nat * Q) s :
  np.insert id p.2 (s.*2) = (np.insert snd p s).*2.
Proof.
  induction s as [|q s IH]; simpl; [done|].
  destruct (Qle_bool p.2 q.2); simpl; [done|].
  f_equal. apply IH.
Qed.

Lemma isort_fmap_snd (l : list (nat * Q)) :
  np.isort id (l.*2) = (np.isort snd l).*2.
Proof.
  induction l as [|p l IH]; [done|].
  change (np.insert id p.2 (np.isort id (l.*2))
          = (np.insert snd p (np.isort snd l)).*2).
  rewrite IH. apply insert_fmap_snd.
Qed.

Lemma insert_sorted p s :
  Forall (λ q : nat * Q, (p.1 < q.1)%nat) s →
  StronglySorted before s →
  StronglySorted before (np.insert snd p s).
Proof.
  induction s as [|y s IH]; simpl; intros Hpos Hs.
  - repeat constructor.
  - apply Forall_cons in Hpos as [Hy Hpos].
    apply StronglySorted_inv in Hs as [Hs Hys].
    destruct (Qle_bool p.2 y.2) eqn:Hle.
    + apply Qle_bool_iff in Hle.
      assert (before p y) as Hpy.
      { unfold before. destruct (Qlt_le_dec p.2 y.2); [by left|].
        right. split; [lra | done]. }
      constructor; [by constructor|].
      constructor; [done|].
      eapply Forall_impl; [exact Hys|]. intros z Hz.
      by eapply before_trans.
    + assert (before y p) as Hyp.
      { left. apply Qnot_le_lt. intros H. apply Qle_bool_iff in H. congruence. }
      constructor; [by apply IH|].
      rewrite insert_Permutation. by constructor.
Qed.

Lemma isort_sorted (l : list (nat * Q)) :
  StronglySorted (λ p q, (p.1 < q.1)%nat) l →
  StronglySorted before (np.isort snd l).
Proof.
  induction l as [|p l IH]; intros Hl.
  - constructor.
  - apply StronglySorted_inv in Hl as [Hl Hp].
    change (StronglySorted before (np.insert snd p (np.isort snd l))).
    apply insert_sorted; [|by apply IH].
    by rewrite isort_Permutation.
Qed.

Lemma zip_seq_increasing {A} (a : list A) j :
  StronglySorted (λ p q : nat * A, (p.1 < q.1)%nat) (zip (seq j (length a)) a).
Proof.
  revert j. induction a as [|x a IH]; intros j; simpl; constructor.
  - apply IH.
  - apply Forall_forall. intros [i y] Hin. simpl.
    apply list_elem_of_lookup in Hin as [r Hr].
    apply lookup_zip_with_Some in Hr as (i' & y' & [= <- <-] & Hi & _).
    apply lookup_seq in Hi. lia.
Qed.

Lemma enumerate_lookup {A} (a : list A) r i x :
  np.enumerate a !! r = Some (i, x) ↔ i = r ∧ a !! r = Some x.
Proof.
  unfold np.enumerate. rewrite lookup_zip_with_Some. split.
  - intros (i' & x' & [= <- <-] & Hi & Hx).
    apply lookup_seq in Hi as [Hi _]. split; [by rewrite Hi | done].
  - intros [-> Hx]. exists r, x. split_and!; [done| |done].
    apply lookup_seq. split; [done|]. by eapply lookup_lt_Some.
Qed.

Lemma enumerate_fst {A} (a : list A) : (np.enumerate a).*1 = seq 0 (length a).
Proof. unfold np.enumerate. apply fst_zip. by rewrite length_seq. Qed.

Lemma enumerate_snd {A} (a : list A) : (np.enumerate a).*2 = a.
Proof. unfold np.enumerate. apply snd_zip. by rewrite length_seq. Qed.

Lemma argsort_ascending a : np.argsort a = (ascending a).*1.
Proof. done. Qed.

Lemma sort_ascending a : np.sort a = (ascending a).*2.
Proof.
  unfold np.sort, ascending. rewrite <- isort_fmap_snd. by rewrite enumerate_snd.
Qed.

Lemma ascending_sorted a : StronglySorted before (ascending a).
Proof. apply isort_sorted, zip_seq_increasing. Qed.

Lemma ascending_Permutation a : ascending a ≡ₚ np.enumerate a.
Proof. apply isort_Permutation. Qed.

Lemma ascending_length a : length (ascending a) = length a.
Proof.
  rewrite ascending_Permutation. unfold np.enumerate.
  rewrite length_zip_with, length_seq. lia.
Qed.

Lemma ascending_elem a i x : (i, x) ∈ ascending a → a !! i = Some x.
Proof.
  rewrite ascending_Permutation. intros Hin.
  apply list_elem_of_lookup in Hin as [r Hr].
  by apply enumerate_lookup in Hr as [-> ?].
Qed.

Lemma ascending_NoDup a : NoDup (ascending a).*1.
Proof.
  rewrite ascending_Permutation, enumerate_fst. apply NoDup_seq.
Qed.

Lemma sort_length a : length (np.sort a) = length a.
Proof. by rewrite sort_ascending, length_fmap, ascending_length. Qed.

Lemma argsort_length a : length (np.argsort a) = length a.
Proof. by rewrite argsort_ascending, length_fmap, ascending_length. Qed.

(** Generalities on strongly sorted lists. *)
Lemma StronglySorted_lookup {A} (R : relation A) l i j x y :
  StronglySorted R l → (i < j)%nat →
  l !! i = Some x → l !! j = Some y → R x y.
Proof.
  intros Hl. revert i j. induction Hl as [|z l Hl IH Hz]; intros i j Hij Hi Hj.
  - done.
  - destruct j as [|j]; [lia|]. destruct i as [|i]; simpl in *.
    + injection Hi as ->. eapply Forall_forall in Hz; [exact Hz|].
      by eapply list_elem_of_lookup_2.
    + eapply (IH i j); [lia|done..].
Qed.

Lemma StronglySorted_take {A} (R : relation A) l n :
  StronglySorted R l → StronglySorted R (take n l).
Proof.
  intros Hl. revert n. induction Hl as [|z l Hl IH Hz]; intros [|n]; simpl;
    try constructor.
  - apply IH.
  - by apply Forall_take.
Qed.

Lemma StronglySorted_reverse {A} (R : relation A) l :
  StronglySorted R l → StronglySorted (flip R) (reverse l).
Proof.
  induction 1 as [|z l Hl IH Hz]; [constructor|].
  rewrite reverse_cons. apply StronglySorted_app_2; [|done|repeat constructor].
  intros x y Hx Hy. apply list_elem_of_singleton in Hy as ->.
  rewrite elem_of_reverse in Hx. unfold flip.
  rewrite Forall_forall in Hz. by apply Hz.
Qed.

Lemma slice_to_neg {A} (l : list A) k :
  (k < 0)%Z → slice_to l k = take (length l - Z.to_nat (- k)) l.
Proof. intros Hk. unfold slice_to. by rewrite (proj2 (Z.leb_gt 0 k) Hk). Qed.

Lemma slice_to_length {A} (l : list A) k :
  length (slice_to l k) = kept (length l) k.
Proof.
  unfold slice_to, kept. destruct (0 <=? k)%Z; rewrite length_take; lia.
Qed.

Lemma slice_to_take {A} (l : list A) k :
  slice_to l k = take (kept (length l) k) l.
Proof.
  unfold slice_to, kept. destruct (0 <=? k)%Z; [|done].
  destruct (decide (Z.to_nat k ≤ length l)%nat).
  - by rewrite Nat.min_l.
  - rewrite Nat.min_r by lia. rewrite !take_ge; [done|lia..].
Qed.

Lemma top_k_ranking a k :
  top_k a k = ((ranking a (kept (length a) k)).*2,
               (ranking a (kept (length a) k)).*1).
Proof.
  unfold top_k, ranking.
  rewrite sort_ascending, argsort_ascending, !slice_to_take.
  rewrite !length_reverse, !length_fmap, ascending_length.
  by rewrite <- !fmap_reverse, <- !fmap_take.
Qed.

Lemma ranking_length a n : length (ranking a n) = n `min` length a.
Proof.
  unfold ranking. by rewrite length_take, length_reverse, ascending_length.
Qed.

Lemma ranking_sorted a n : StronglySorted (flip before) (ranking a n).
Proof.
  apply StronglySorted_take, StronglySorted_reverse, ascending_sorted.
Qed.

Lemma ranking_elem a n i x : (i, x) ∈ ranking a n → a !! i = Some x.
Proof.
  intros Hin. apply ascending_elem. unfold ranking in Hin.
  rewrite <- elem_of_reverse. eapply elem_of_sublist; [exact Hin|apply sublist_take].
Qed.

Lemma ranking_NoDup a n : NoDup (ranking a n).*1.
Proof.
  unfold ranking. rewrite fmap_take, fmap_reverse.
  eapply sublist_NoDup; [|apply sublist_take].
  rewrite reverse_Permutation. apply ascending_NoDup.
Qed.

Lemma ranking_lookup_fst a n r i :
  (ranking a n).*1 !! r = Some i →
  ∃ s, ranking a n !! r = Some (i, s) ∧ a !! i = Some s.
Proof.
  rewrite list_lookup_fmap. destruct (ranking a n !! r) as [[i' s]|] eqn:Hr; [|done].
  intros [= <-]. exists s. split; [done|].
  eapply ranking_elem, list_elem_of_lookup_2, Hr.
Qed.

Lemma ranking_lookup_snd a n r s :
  (ranking a n).*2 !! r = Some s → ∃ i, ranking a n !! r = Some (i, s).
Proof.
  rewrite list_lookup_fmap. destruct (ranking a n !! r) as [[i s']|]; [|done].
  intros [= <-]. by exists i.
Qed.

Lemma ranking_ranked a n : ranked a n (ranking a n).*2 (ranking a n).*1.
Proof.
  unfold ranked. rewrite !length_fmap, ranking_length. split_and!; try done.
  - apply ranking_NoDup.
  - intros r i Hi. apply ranking_lookup_fst in Hi as (s & Hr & Hs).
    exists s. split; [done|]. by rewrite list_lookup_fmap, Hr.
  - intros r r' s s' Hlt Hs Hs'.
    apply ranking_lookup_snd in Hs as [i Hr].
    apply ranking_lookup_snd in Hs' as [i' Hr'].
    pose proof (StronglySorted_lookup _ _ _ _ _ _ (ranking_sorted a n) Hlt Hr Hr')
      as [H|[H _]]; simpl in H; lra.
  - intros r r' i i' s s' Hlt Hi Hi' Hs Hs' Heq.
    apply ranking_lookup_fst in Hi as (s0 & Hr & Hs0).
    apply ranking_lookup_fst in Hi' as (s0' & Hr' & Hs0').
    assert (s0 = s) as -> by congruence. assert (s0' = s') as -> by congruence.
    pose proof (StronglySorted_lookup _ _ _ _ _ _ (ranking_sorted a n) Hlt Hr Hr')
      as [H|[_ H]]; simpl in H; [lra|done].
Qed.

(** ** Single-query scoring *)

Lemma get_relevant_doc_unfold query k w :
  get_relevant_doc query k w =
  match bm25 (self w) with
  | Some (ObjBM25 b) =>
      let query_scores := get_scores b (py_iter query) in
      (if Qeq_bool (np.sum query_scores) 0
       then inl (AssertionError NoVocabMatch)
       else inr (top_k query_scores k),
       logged [EvGetScores (py_iter query)] w)
  | _ => (inl AttributeError, w)
  end.
Proof.
  unfold get_relevant_doc, call_get_scores, bind, get_self.
  destruct (bm25 (self w)) as [[b| |]|]; try done.
  simpl. by destruct (Qeq_bool _ _).
Qed.

Lemma sum_all_zero a : Forall (λ s, s == 0) a → np.sum a == 0.
Proof.
  induction 1 as [|s a Hs _ IH]; simpl; [reflexivity|]. rewrite Hs, IH. lra.
Qed.

Lemma retrieve_unfold arg topk w :
  retrieve arg topk w =
  match bm25 (self w) with
  | None => (inl (AssertionError MustBuildFirst), w)
  | Some _ =>
      match arg with
      | AStr query =>
          (let* (doc_scores, doc_indices) := get_relevant_doc query topk in
           for_each (λ i,
                       let* score := index doc_scores i in
                       let* pid := index doc_indices i in
                       index (wiki_text (self w)) pid)
                    (range topk) ;;
           let* texts :=
             for_each (λ i,
                         let* pid := index doc_indices i in
                         index (wiki_text (self w)) pid)
                      (range topk) in
           ret (Passages doc_scores texts)) w
      | ADataset d =>
          (let* questions := column d "question" in
           let* (doc_scores, doc_indices) := get_relevant_doc_bulk questions topk in
           let* total :=
             for_each (λ '(idx, example),
                         make_row (wiki_text (self w)) doc_indices idx example)
                      (np.enumerate d) in
           ret (DataFrame total)) w
      | AOther _ => (inr ReturnsNone, w)
      end
  end.
Proof.
  unfold retrieve at 1. unfold bind at 1, get_self. unfold bind at 1.
  destruct (bm25 (self w)) as [o|]; simpl; [|done].
  by destruct arg.
Qed.

(** ** Top-k selection (claims C3 and C6) *)




(** C6, as the code has it: a request for [k <= 0] documents raises
    nothing.  When the scores do not sum to zero, [get_relevant_doc]
    returns the slice [[:k]] of the descending ranking: nothing for
    [k = 0] and, for [k < 0], all but the last [-k] entries. *)
Theorem get_relevant_doc_nonpositive_k (b : BM25) (query : string) (k : Z) (w : world) :
  bm25 (self w) = Some (ObjBM25 b) →
  ¬ np.sum (get_scores b (py_iter query)) == 0 →
  (k <= 0)%Z →
  let query_scores := get_scores b (py_iter query) in
  let n := (length query_scores - Z.to_nat (- k))%nat in
  (get_relevant_doc query k w).1 =
    inr (if bool_decide (k = 0%Z) then ([], [])
         else (take n (reverse (np.sort query_scores)),
               take n (reverse (np.argsort query_scores)))).
Proof.
  intros Hb Hsum Hk. rewrite get_relevant_doc_unfold, Hb. simpl.
  destruct (Qeq_bool _ _) eqn:Heq; [by apply Qeq_bool_iff in Heq|].
  f_equal. unfold top_k. case_bool_decide as Hk0.
  - subst k. done.
  - rewrite !slice_to_neg by lia.
    by rewrite !length_reverse, sort_length, argsort_length.
Qed.

Lemma get_relevant_doc_nonpositive_k_witness :
  bm25 (self demo.ready) = Some (ObjBM25 demo.index_object)
  ∧ ¬ np.sum (get_scores demo.index_object (py_iter "ab")) == 0
  ∧ (-1 <= 0)%Z
  ∧ (get_relevant_doc "ab" (-1) demo.ready).1 =
      inr (take 1 (reverse (np.sort [1; 1])), take 1 (reverse (np.argsort [1; 1]))).
Proof.
  assert (bm25 (self demo.ready) = Some (ObjBM25 demo.index_object)) as Hb
    by reflexivity.
  assert (¬ np.sum (get_scores demo.index_object (py_iter "ab")) == 0) as Hsum
    by (vm_compute; discriminate).
  split_and!; [exact Hb | exact Hsum | lia |].
  apply (get_relevant_doc_nonpositive_k demo.index_object "ab" (-1) demo.ready Hb Hsum).
  lia.
Defined.

(** C6 as stated fails: with [k = -1] and with [k = 0] a result comes
    back, truncated or empty, and no exception. *)
Lemma nonpositive_k_counterexample :
  (get_relevant_doc "ab" (-1) demo.ready).1 = inr ([1], [1%nat])
  ∧ (get_relevant_doc "ab" 0 demo.ready).1 = inr ([], []).
Proof. split; vm_compute; reflexivity. Qed.

(** ** Queries that match nothing (claim C1) *)

(** C1, as the code has it: when the score vector of a query is all
    zeros, as it is when no token is in the vocabulary, single-query
    retrieval raises the [AssertionError] of line 152 and returns no
    top-k, whatever [k] is; so does [retrieve] on that string. *)
Theorem single_query_all_zero_raises (b : BM25) (query : string) (k : Z) (w : world) :
  bm25 (self w) = Some (ObjBM25 b) →
  Forall (λ s, s == 0) (get_scores b (py_iter query)) →
  (get_relevant_doc query k w).1 = inl (AssertionError NoVocabMatch)
  ∧ (retrieve (AStr query) k w).1 = inl (AssertionError NoVocabMatch).
Proof.
  intros Hb Hz.
  assert ((get_relevant_doc query k w).1 = inl (AssertionError NoVocabMatch)) as H.
  { rewrite get_relevant_doc_unfold, Hb. simpl.
    apply sum_all_zero, Qeq_bool_iff in Hz. by rewrite Hz. }
  split; [done|]. rewrite retrieve_unfold, Hb. unfold bind at 1.
  destruct (get_relevant_doc query k w) as [[e|r] w']; simpl in *; congruence.
Qed.

Lemma single_query_all_zero_raises_witness :
  bm25 (self demo.ready) = Some (ObjBM25 demo.index_object)
  ∧ Forall (λ s, s == 0) (get_scores demo.index_object (py_iter "xyz"))
  ∧ (get_relevant_doc "xyz" 1 demo.ready).1 = inl (AssertionError NoVocabMatch)
  ∧ (retrieve (AStr "xyz") 1 demo.ready).1 = inl (AssertionError NoVocabMatch).
Proof.
  assert (bm25 (self demo.ready) = Some (ObjBM25 demo.index_object)) as Hb
    by reflexivity.
  assert (Forall (λ s, s == 0) (get_scores demo.index_object (py_iter "xyz"))) as Hz
    by (vm_compute; repeat constructor).
  split_and!; [exact Hb | exact Hz | ..];
    apply (single_query_all_zero_raises demo.index_object "xyz" 1 demo.ready Hb Hz).
Defined.

(** C1 as stated fails: the query "xyz" shares nothing with the corpus,
    neither as the token the tokenizer makes of it nor character by
    character; every document scores zero, and the call raises instead
    of returning an all-zero top-1. *)
Lemma single_query_all_zero_counterexample :
  get_scores demo.index_object (demo.tok "xyz") = [0; 0]
  ∧ get_scores demo.index_object (py_iter "xyz") = [0; 0]
  ∧ (get_relevant_doc "xyz" 1 demo.ready).1 = inl (AssertionError NoVocabMatch)
  ∧ ¬ ∃ result, (get_relevant_doc "xyz" 1 demo.ready).1 = inr result.
Proof.
  split_and!; [vm_compute; reflexivity..|].
  intros [result H]. vm_compute in H. discriminate H.
Qed.

(** ** The facade [retrieve] (claims C4 and C10) *)

(** C4: as long as [self.bm25] is [None], that is before
    [get_sparse_embedding] has assigned it, [retrieve] fails on the
    assertion of line 96 for a string, for a dataset and for anything
    else, and leaves the world as it was: the log of calls gains no
    entry, so nothing was tokenized, scored, read or written. *)
Theorem retrieve_before_build (arg : query_or_dataset) (topk : Z) (w : world) :
  bm25 (self w) = None →
  retrieve arg topk w = (inl (AssertionError MustBuildFirst), w).
Proof. intros Hb. by rewrite retrieve_unfold, Hb. Qed.

Lemma retrieve_before_build_witness :
  bm25 (self demo.fresh) = None
  ∧ retrieve (ADataset [{[ "question" := Str "dog"; "id" := Str "q1" ]}]) 1 demo.fresh
    = (inl (AssertionError MustBuildFirst), demo.fresh).
Proof. split; [reflexivity | by apply retrieve_before_build]. Defined.

(** A freshly constructed retriever is in that state. *)
Lemma init_not_ready tok path titles texts files :
  bm25 (self (init tok path titles texts files)) = None.
Proof. done. Qed.

(** C10: once [self.bm25] is set, [retrieve] on an argument that is
    neither a string nor a dataset matches no branch and returns [None];
    it raises nothing and touches nothing. *)
Theorem retrieve_other_returns_none (o : other) (topk : Z) (w : world) :
  is_Some (bm25 (self w)) →
  retrieve (AOther o) topk w = (inr ReturnsNone, w).
Proof. intros [b Hb]. by rewrite retrieve_unfold, Hb. Qed.

Lemma retrieve_other_returns_none_witness :
  is_Some (bm25 (self demo.ready))
  ∧ retrieve (AOther (PyList ["a"; "b"])) 1 demo.ready = (inr ReturnsNone, demo.ready).
Proof.
  assert (is_Some (bm25 (self demo.ready))) as Hb by (eexists; reflexivity).
  split; [exact Hb | by apply retrieve_other_returns_none].
Defined.

(** ** The batch cache (claim C9) *)

Lemma get_relevant_doc_bulk_hit queries k w :
  is_Some (fs w !! score_path w) → is_Some (fs w !! indice_path w) →
  get_relevant_doc_bulk queries k w =
  (let* doc_scores := pickle_load (score_path w) in
   let* doc_indices := pickle_load (indice_path w) in
   ret (doc_scores, doc_indices)) w.
Proof.
  intros Hs Hi. unfold get_relevant_doc_bulk.
  unfold bind at 1, get_self. unfold bind at 1, os_path_isfile at 1.
  unfold bind at 1, os_path_isfile at 1.
  fold (score_path w). fold (indice_path w).
  by rewrite !bool_decide_eq_true_2.
Qed.

Lemma pickle_load_unfold path w :
  pickle_load path w =
  (match fs w !! path with
   | Some (Pickle o) => inr o
   | Some Truncated => inl EOFError
   | None => inl FileNotFoundError
   end, logged [EvLoad path] w).
Proof.
  unfold pickle_load, bind, log, logged. simpl.
  by destruct (fs w !! path) as [[|o]|].
Qed.

(** C9: when both [BM25_score.bin] and [BM25_indice.bin] exist in the
    data directory, [get_relevant_doc_bulk] does the same for every list
    of queries and every [k]; the only calls it makes are the two loads,
    so no query is tokenized or scored; and what it returns is the pair
    of the two unpickled objects. *)
Theorem get_relevant_doc_bulk_cached (queries : list value) (k : Z) (w : world) :
  is_Some (fs w !! score_path w) →
  is_Some (fs w !! indice_path w) →
  (∀ queries' k',
     get_relevant_doc_bulk queries' k' w = get_relevant_doc_bulk queries k w)
  ∧ (∃ loads, loads `prefix_of` [EvLoad (score_path w); EvLoad (indice_path w)]
       ∧ (get_relevant_doc_bulk queries k w).2 = logged loads w)
  ∧ (∀ doc_scores doc_indices,
       fs w !! score_path w = Some (Pickle doc_scores) →
       fs w !! indice_path w = Some (Pickle doc_indices) →
       get_relevant_doc_bulk queries k w =
         (inr (doc_scores, doc_indices),
          logged [EvLoad (score_path w); EvLoad (indice_path w)] w)).
Proof.
  intros Hs Hi. split_and!.
  - intros queries' k'. by rewrite !get_relevant_doc_bulk_hit.
  - rewrite get_relevant_doc_bulk_hit by done.
    unfold bind at 1. rewrite pickle_load_unfold.
    destruct Hs as [[|ds] Hs]; rewrite Hs.
    { exists [EvLoad (score_path w)]. split; [|done]. by eexists [_]. }
    unfold bind at 1. rewrite pickle_load_unfold. simpl.
    exists [EvLoad (score_path w); EvLoad (indice_path w)]. split; [done|].
    destruct Hi as [[|di] Hi]; rewrite Hi; unfold logged; simpl;
      by rewrite <- app_assoc.
  - intros ds di Hds Hdi. rewrite get_relevant_doc_bulk_hit by done.
    unfold bind at 1. rewrite pickle_load_unfold, Hds.
    unfold bind at 1. rewrite pickle_load_unfold. simpl. rewrite Hdi.
    unfold ret, logged. simpl. by rewrite <- app_assoc.
Qed.

Lemma get_relevant_doc_bulk_cached_witness :
  is_Some (fs demo.cached !! score_path demo.cached)
  ∧ is_Some (fs demo.cached !! indice_path demo.cached)
  ∧ (get_relevant_doc_bulk [Str "a"; Str "b"] 2 demo.cached).1
    = inr (ObjScores [[1]], ObjIndices [[1%nat]]).
Proof.
  assert (fs demo.cached !! score_path demo.cached = Some (Pickle (ObjScores [[1]])))
    as Hs by (vm_compute; reflexivity).
  assert (fs demo.cached !! indice_path demo.cached = Some (Pickle (ObjIndices [[1%nat]])))
    as Hi by (vm_compute; reflexivity).
  split_and!; [by rewrite Hs | by rewrite Hi |].
  destruct (get_relevant_doc_bulk_cached [Str "a"; Str "b"] 2 demo.cached)
    as (_ & _ & H); [by rewrite Hs | by rewrite Hi |].
  by rewrite (H _ _ Hs Hi).
Defined.

(** ** Ground truth in the batch output (claim C8) *)

Lemma for_each_inr {A B} (body : A → M B) l w ys w' :
  for_each body l w = (inr ys, w') →
  Forall2 (λ x y, ∃ w1 w2, body x w1 = (inr y, w2)) l ys.
Proof.
  revert w ys. induction l as [|x l IH]; intros w ys; simpl.
  - intros [= <- <-]. constructor.
  - unfold bind at 1. destruct (body x w) as [[e|y] w1] eqn:Hx; [done|].
    unfold bind at 1. destruct (for_each body l w1) as [[e|ys'] w2] eqn:Hl; [done|].
    intros [= <- <-]. constructor; [by eauto | by eapply IH].
Qed.

Lemma make_row_fields wiki doc_indices idx example w row w' :
  make_row wiki doc_indices idx example w = (inr row, w') →
  row !! "question" = example !! "question"
  ∧ row !! "id" = example !! "id"
  ∧ row !! "original_context" =
      (if in_keys "context" example && in_keys "answers" example
       then example !! "context" else None)
  ∧ row !! "answers" =
      (if in_keys "context" example && in_keys "answers" example
       then example !! "answers" else None).
Proof.
  unfold make_row, getitem, in_keys.
  unfold bind at 1. destruct (example !! "question") as [question|]; [|done]. simpl.
  unfold bind at 1. destruct (example !! "id") as [id|]; [|done]. simpl.
  unfold bind at 1. destruct (indices_at doc_indices idx w) as [[e|context_id] w1]; [done|].
  unfold bind at 1. destruct (for_each _ context_id w1) as [[e|passages] w2]; [done|].
  destruct (example !! "context") as [context|],
           (example !! "answers") as [answers|]; simpl;
    intros [= <- <-]; by simplify_map_eq.
Qed.

(** C8, as the code has it: in batch retrieval the output has one row
    per input record, in order; a row carries the record's [question]
    and [id] verbatim; and [original_context] and [answers] are present
    in a row exactly when the record carries both [context] and
    [answers], in which case they equal the record's values verbatim.  A
    record that carries only one of the two gets neither. *)
Theorem retrieve_ground_truth (d : Dataset) (topk : Z) (w w' : world)
    (rows : list (gmap string value)) :
  retrieve (ADataset d) topk w = (inr (DataFrame rows), w') →
  length rows = length d
  ∧ ∀ i example row, d !! i = Some example → rows !! i = Some row →
      row !! "question" = example !! "question"
      ∧ row !! "id" = example !! "id"
      ∧ row !! "original_context" =
          (if in_keys "context" example && in_keys "answers" example
           then example !! "context" else None)
      ∧ row !! "answers" =
          (if in_keys "context" example && in_keys "answers" example
           then example !! "answers" else None).
Proof.
  rewrite retrieve_unfold. destruct (bm25 (self w)); [|done].
  unfold bind at 1. destruct (column d "question" w) as [[e|questions] w1]; [done|].
  unfold bind at 1.
  destruct (get_relevant_doc_bulk questions topk w1) as [[e|[ds di]] w2]; [done|].
  unfold bind at 1.
  destruct (for_each _ (np.enumerate d) w2) as [[e|total] w3] eqn:Hrows; [done|].
  intros [= <- <-]. apply for_each_inr in Hrows.
  split.
  - apply Forall2_length in Hrows. rewrite <- Hrows. unfold np.enumerate.
    rewrite length_zip_with, length_seq. lia.
  - intros i example row Hi Hrow.
    assert (np.enumerate d !! i = Some (i, example)) as Hie
      by by apply enumerate_lookup.
    destruct (Forall2_lookup_lr _ _ _ _ _ _ Hrows Hie Hrow) as (w4 & w5 & Hmk).
    by eapply make_row_fields.
Qed.

Lemma retrieve_ground_truth_witness :
  ∃ rows w',
    retrieve (ADataset demo.validation) 1 demo.ready = (inr (DataFrame rows), w')
    ∧ length rows = length demo.validation.
Proof.
  destruct (retrieve (ADataset demo.validation) 1 demo.ready)
    as [[e|[ | rows | ]] w'] eqn:H;
    try (vm_compute in H; discriminate H).
  exists rows, w'. split; [reflexivity|].
  apply (retrieve_ground_truth demo.validation 1 demo.ready w' rows H).
Defined.

(** C8 as stated fails: a record that carries [context] but not
    [answers] comes out without [original_context]. *)
Lemma ground_truth_counterexample :
  demo.test_record !! "context" = Some (Str "b dog ran")
  ∧ ∃ row,
      (retrieve (ADataset [demo.test_record]) 1 demo.ready).1 = inr (DataFrame [row])
      ∧ row !! "original_context" = None.
Proof.
  split; [vm_compute; reflexivity|].
  exists {[ "question" := Str "dog"; "id" := Str "q1";
            "context_id" := IntArray [1%nat]; "context" := Str "b dog ran" ]}.
  split; vm_compute; reflexivity.
Qed.

(** ** The index cache (claims C5 and C7) *)

Lemma logged_nil w : logged [] w = w.
Proof. destruct w. unfold logged. simpl. by rewrite app_nil_r. Qed.

Lemma logged_logged e1 e2 w : logged e2 (logged e1 w) = logged (e1 ++ e2) w.
Proof. unfold logged. simpl. by rewrite app_assoc. Qed.

Lemma tokenize_corpus_run (l : list (string * string)) w :
  for_each (λ '(title, text), call_tokenize_fn (title +:+ text)) l w =
  (inr (tokenize_fn (self w) <$> ((λ '(title, text), title +:+ text) <$> l)),
   logged (EvTokenize <$> ((λ '(title, text), title +:+ text) <$> l)) w).
Proof.
  revert w. induction l as [|[title text] l IH]; intros w.
  - simpl. unfold ret. by rewrite logged_nil.
  - simpl. unfold bind at 1.
    change (call_tokenize_fn (title +:+ text) w)
      with (inr (A := exn) (tokenize_fn (self w) (title +:+ text)),
            logged [EvTokenize (title +:+ text)] w).
    unfold bind at 1. rewrite IH. simpl. unfold ret. by rewrite logged_logged.
Qed.

Section index_cache.

Variable BM25Plus : list (list string) → exn + BM25.

Lemma get_sparse_embedding_hit w o :
  fs w !! emd_path w = Some (Pickle o) →
  get_sparse_embedding BM25Plus w =
    (inr tt, with_bm25 o (logged [EvLoad (emd_path w)] w)).
Proof.
  intros Hf. unfold get_sparse_embedding.
  unfold bind at 1, get_self. unfold bind at 1, os_path_isfile at 1.
  fold (emd_path w). rewrite bool_decide_eq_true_2 by by rewrite Hf.
  unfold bind at 1. rewrite pickle_load_unfold, Hf. done.
Qed.

Lemma get_sparse_embedding_truncated w :
  fs w !! emd_path w = Some Truncated →
  get_sparse_embedding BM25Plus w = (inl EOFError, logged [EvLoad (emd_path w)] w).
Proof.
  intros Hf. unfold get_sparse_embedding.
  unfold bind at 1, get_self. unfold bind at 1, os_path_isfile at 1.
  fold (emd_path w). rewrite bool_decide_eq_true_2 by by rewrite Hf.
  unfold bind at 1. rewrite pickle_load_unfold, Hf. done.
Qed.

Lemma get_sparse_embedding_miss w :
  fs w !! emd_path w = None →
  get_sparse_embedding BM25Plus w =
    let w1 := logged ((EvTokenize <$> documents w) ++ [EvBuild (tokenized_corpus w)]) w in
    match BM25Plus (tokenized_corpus w) with
    | inl e => (inl e, w1)
    | inr b =>
        (inr tt,
         {| self := self (with_bm25 (ObjBM25 b) w);
            fs := <[emd_path w := Pickle (ObjBM25 b)]>
                    (<[emd_path w := Truncated]> (fs w));
            trace := trace w1 ++ [EvOpenW (emd_path w);
                                  EvDump (emd_path w) (ObjBM25 b)] |})
    end.
Proof.
  intros Hf. unfold get_sparse_embedding.
  unfold bind at 1, get_self. unfold bind at 1, os_path_isfile at 1.
  fold (emd_path w). rewrite bool_decide_eq_false_2 by (rewrite Hf; by intros [? ?]).
  unfold bind at 1. rewrite tokenize_corpus_run.
  fold (documents w). fold (tokenized_corpus w).
  unfold bind at 1, call_BM25Plus. unfold bind at 1, log at 1.
  destruct (BM25Plus (tokenized_corpus w)) as [e|b]; simpl.
  - unfold raise, logged. simpl. by rewrite app_assoc.
  - unfold with_bm25, logged, bind, set_bm25, open_wb, pickle_dump, bind, log,
      write_file. simpl. by rewrite <- !app_assoc.
Qed.


(** A failure of the constructor is the failure of the build:
    [self.bm25] is not assigned and no file is opened. *)
Lemma build_failure_propagates w e :
  fs w !! emd_path w = None →
  BM25Plus (tokenized_corpus w) = inl e →
  get_sparse_embedding BM25Plus w =
    (inl e, logged ((EvTokenize <$> documents w) ++ [EvBuild (tokenized_corpus w)]) w).
Proof. intros Hf He. rewrite get_sparse_embedding_miss by done. by rewrite He. Qed.

End index_cache.






(** C7: on a corpus of zero documents and with no cache file, the build
    fails with [EmptyCorpusError]; [self.bm25] keeps its value, no file
    is created, and nothing was tokenized. *)
Theorem build_empty_corpus_fails (score : Index → list string → list Q) (w : world) :
  fs w !! emd_path w = None →
  zip (wiki_title (self w)) (wiki_text (self w)) = [] →
  get_sparse_embedding (build score) w =
    (inl EmptyCorpusError, logged [EvBuild []] w).
Proof.
  intros Hf Hempty.
  assert (documents w = []) as Hdocs by (unfold documents; by rewrite Hempty).
  assert (tokenized_corpus w = []) as Htok by (unfold tokenized_corpus; by rewrite Hdocs).
  rewrite (build_failure_propagates (build score) w EmptyCorpusError Hf)
    by by rewrite Htok.
  by rewrite Hdocs, Htok.
Qed.

Lemma build_empty_corpus_fails_witness :
  fs (init demo.tok "data/" [] [] ∅) !! emd_path (init demo.tok "data/" [] [] ∅) = None
  ∧ zip (wiki_title (self (init demo.tok "data/" [] [] ∅)))
        (wiki_text (self (init demo.tok "data/" [] [] ∅))) = []
  ∧ get_sparse_embedding (build demo.score) (init demo.tok "data/" [] [] ∅) =
      (inl EmptyCorpusError, logged [EvBuild []] (init demo.tok "data/" [] [] ∅)).
Proof.
  split_and!; [reflexivity..|].
  apply (build_empty_corpus_fails demo.score (init demo.tok "data/" [] [] ∅));
    reflexivity.
Defined.

(** ** The tokenizer on the two entry points (claim C2) *)

(** C2 does not hold of the single-query entry point.  The batch entry
    point passes [self.tokenize_fn(query)] to [get_scores] (line 190),
    but [get_relevant_doc] passes the raw string (line 151), which the
    scorer then reads character by character: its result is the same
    whatever the tokenizer is, and the only call it logs is the scoring
    of the characters.  On the demo corpus the query "dog" finds
    document 1 through the batch entry point and raises through the
    single-query one. *)
Theorem single_query_skips_tokenizer :
  (∀ tok query k w,
     (get_relevant_doc query k (with_tokenize_fn tok w)).1
     = (get_relevant_doc query k w).1
     ∧ (trace (get_relevant_doc query k w).2 = trace w
        ∨ trace (get_relevant_doc query k w).2
          = trace w ++ [EvGetScores (py_iter query)]))
  ∧ demo.tok "dog" = ["dog"]
  ∧ py_iter "dog" = ["d"; "o"; "g"]
  ∧ (get_relevant_doc_bulk [Str "dog"] 1 demo.ready).1
    = inr (ObjScores [[1]], ObjIndices [[1%nat]])
  ∧ (get_relevant_doc "dog" 1 demo.ready).1 = inl (AssertionError NoVocabMatch).
Proof.
  split_and!; [|vm_compute; reflexivity..].
  intros tok query k w. rewrite !get_relevant_doc_unfold. simpl.
  destruct (bm25 (self w)) as [[b| |]|]; simpl; auto.
Qed.

(** * Further properties of the code *)

(** ** Top-k selection for every [k] *)

Lemma kept_le n k : (kept n k ≤ n)%nat.
Proof. unfold kept. destruct (0 <=? k)%Z; lia. Qed.

(** X1: whatever [k] is, negative or larger than the corpus, the two
    arrays that [top_k] returns have the same length, the one that the
    slice [[:k]] leaves of the corpus size; no document is returned
    twice; and the score at a rank is the score of the document at that
    rank. *)
Theorem top_k_aligned (a : list Q) (k : Z) :
  length (top_k a k).1 = length (top_k a k).2
  ∧ length (top_k a k).2 =
      (if (0 <=? k)%Z then Z.to_nat k `min` length a
       else length a - Z.to_nat (- k))%nat
  ∧ NoDup (top_k a k).2
  ∧ ∀ r i, (top_k a k).2 !! r = Some i →
      ∃ s, a !! i = Some s ∧ (top_k a k).1 !! r = Some s.
Proof.
  rewrite top_k_ranking. cbn [fst snd].
  destruct (ranking_ranked a (kept (length a) k)) as (H1 & H2 & H3 & H4 & _).
  pose proof (kept_le (length a) k) as Hle.
  rewrite Nat.min_l in H1, H2 by done.
  split_and!; [congruence | exact H2 | exact H3 | exact H4].
Qed.

Lemma ascending_has a j s : a !! j = Some s → (j, s) ∈ ascending a.
Proof.
  intros Hj. rewrite ascending_Permutation.
  eapply list_elem_of_lookup_2. by apply enumerate_lookup.
Qed.

(** X2: for [k >= 1] the document returned first has the highest score
    of the corpus: no document scores more. *)
Theorem top_k_first_is_max (a : list Q) (k : Z) (i : nat) :
  (1 <= k)%Z →
  (top_k a k).2 !! 0%nat = Some i →
  ∃ si, a !! i = Some si ∧ ∀ j s, a !! j = Some s → s <= si.
Proof.
  intros Hk. rewrite top_k_ranking. cbn [snd]. intros Hi.
  apply ranking_lookup_fst in Hi as (si & Hr & Hsi).
  exists si. split; [done|]. intros j s Hj.
  unfold ranking in Hr. apply lookup_take_Some in Hr as [Hr _].
  apply ascending_has in Hj. rewrite <- elem_of_reverse in Hj.
  apply list_elem_of_lookup in Hj as [r Hj].
  destruct r as [|r].
  - rewrite Hr in Hj. injection Hj as _ ->. lra.
  - assert (StronglySorted (flip before) (reverse (ascending a))) as Hs
      by apply StronglySorted_reverse, ascending_sorted.
    pose proof (StronglySorted_lookup _ _ 0%nat (S r) _ _ Hs ltac:(lia) Hr Hj)
      as [H|[H _]]; simpl in H; lra.
Qed.

Lemma top_k_first_is_max_witness :
  (1 <= 1)%Z
  ∧ (top_k [1; 3; 2] 1).2 !! 0%nat = Some 1%nat
  ∧ ∃ si, [1; 3; 2] !! 1%nat = Some si ∧ ∀ j s, [1; 3; 2] !! j = Some s → s <= si.
Proof.
  assert ((top_k [1; 3; 2] 1).2 !! 0%nat = Some 1%nat) as Hi by reflexivity.
  split_and!; [lia | exact Hi |].
  apply (top_k_first_is_max [1; 3; 2] 1 1%nat); [lia | exact Hi].
Defined.

(** X3: when [k] is at least the corpus size, [top_k] returns every
    document exactly once: the indices are a permutation of all the
    ordinals and the scores a permutation of the score vector. *)
Theorem top_k_whole_corpus (a : list Q) (k : Z) :
  (Z.of_nat (length a) <= k)%Z →
  (top_k a k).2 ≡ₚ seq 0 (length a) ∧ (top_k a k).1 ≡ₚ a.
Proof.
  intros Hk. rewrite top_k_ranking. cbn [fst snd].
  assert (kept (length a) k = length a) as ->.
  { unfold kept. rewrite (proj2 (Z.leb_le 0 k)) by lia. lia. }
  unfold ranking. rewrite take_ge by (rewrite length_reverse, ascending_length; lia).
  rewrite !reverse_Permutation.
  rewrite ascending_Permutation. by rewrite enumerate_fst, enumerate_snd.
Qed.

Lemma top_k_whole_corpus_witness :
  (Z.of_nat (length [1; 3; 2]) <= 5)%Z
  ∧ (top_k [1; 3; 2] 5).2 ≡ₚ seq 0 (length [1; 3; 2])
  ∧ (top_k [1; 3; 2] 5).1 ≡ₚ [1; 3; 2].
Proof.
  assert (Z.of_nat (length [1; 3; 2]) <= 5)%Z as Hk by (simpl; lia).
  split; [exact Hk | apply (top_k_whole_corpus [1; 3; 2] 5 Hk)].
Defined.

(** ** Loops *)

Lemma index_unfold {A} (l : list A) i w :
  index l i w = (match l !! i with Some x => inr x | None => inl IndexError end, w).
Proof. unfold index. by destruct (l !! i). Qed.

Lemma getitem_unfold d key w :
  getitem d key w = (match d !! key with Some v => inr v | None => inl (KeyError key) end, w).
Proof. unfold getitem. by destruct (d !! key). Qed.

Lemma index_raises {A} (l : list A) i w e :
  (index l i w).1 = inl e → e = IndexError.
Proof. rewrite index_unfold. destruct (l !! i); simpl; congruence. Qed.


Lemma bind_raises {A B} (m : M A) (k : A → M B) w e :
  (bind m k w).1 = inl e →
  (m w).1 = inl e ∨ ∃ a w1, (k a w1).1 = inl e.
Proof.
  unfold bind. destruct (m w) as [[e'|a] w1]; simpl; [intros [= ->]; by left|].
  intros H. right. by exists a, w1.
Qed.

(** A loop one round of which always raises, and whose rounds can raise
    only [e0], raises [e0]. *)
Lemma for_each_raises {A B} (body : A → M B) l e0 w :
  (∀ x w e, x ∈ l → (body x w).1 = inl e → e = e0) →
  (∃ x, x ∈ l ∧ ∀ w, ∃ e, (body x w).1 = inl e) →
  (for_each body l w).1 = inl e0.
Proof.
  revert w. induction l as [|x l IH]; intros w Honly (x0 & Hin & Hfail).
  - by apply elem_of_nil in Hin.
  - simpl. unfold bind at 1.
    destruct (body x w) as [[e|y] w1] eqn:Hx.
    + simpl. f_equal. apply (Honly x w e); [left | by rewrite Hx].
    + assert (x0 ∈ l) as Hin'.
      { apply elem_of_cons in Hin as [->|?]; [|done].
        destruct (Hfail w) as [e He]. by rewrite Hx in He. }
      unfold bind at 1.
      assert ((for_each body l w1).1 = inl e0) as Hrest.
      { apply IH; [|by eauto]. intros x' w' e' ?. apply Honly. by right. }
      destruct (for_each body l w1) as [[e|ys] w2]; simpl in *; congruence.
Qed.

(** A loop whose rounds all return without touching the world returns
    the list of what they return. *)
Lemma for_each_ok {A B} (body : A → M B) (l : list A) :
  (∀ x, x ∈ l → ∃ y, ∀ w, body x w = (inr y, w)) →
  ∃ ys, (∀ w, for_each body l w = (inr ys, w))
        ∧ Forall2 (λ x y, ∀ w, body x w = (inr y, w)) l ys.
Proof.
  induction l as [|x l IH]; intros Hall.
  - exists []. split; [done | constructor].
  - destruct (Hall x) as [y Hy]; [left|].
    destruct IH as (ys & Hys & Hf); [intros; apply Hall; by right|].
    exists (y :: ys). split; [|by constructor].
    intros w. simpl. unfold bind at 1. rewrite Hy.
    unfold bind at 1. by rewrite Hys.
Qed.

Lemma range_lookup topk r :
  (r < Z.to_nat topk)%nat → range topk !! r = Some r.
Proof. intros Hr. unfold range. by apply lookup_seq. Qed.

Lemma range_elem topk r : r ∈ range topk ↔ (r < Z.to_nat topk)%nat.
Proof. unfold range. rewrite elem_of_seq. lia. Qed.

Lemma top_k_length_fst a k : length (top_k a k).1 = kept (length a) k.
Proof.
  rewrite top_k_ranking. cbn [fst]. rewrite length_fmap, ranking_length.
  pose proof (kept_le (length a) k). lia.
Qed.

Lemma top_k_length_snd a k : length (top_k a k).2 = kept (length a) k.
Proof.
  rewrite top_k_ranking. cbn [snd]. rewrite length_fmap, ranking_length.
  pose proof (kept_le (length a) k). lia.
Qed.

Lemma top_k_lookup_snd a k r i :
  (top_k a k).2 !! r = Some i → ∃ s, a !! i = Some s.
Proof.
  rewrite top_k_ranking. cbn [snd]. intros Hi.
  apply ranking_lookup_fst in Hi as (s & _ & Hs). by exists s.
Qed.

(** ** [retrieve] on a single query *)

Lemma retrieve_single_scored b query topk w :
  bm25 (self w) = Some (ObjBM25 b) →
  ¬ np.sum (get_scores b (py_iter query)) == 0 →
  retrieve (AStr query) topk w =
  (let doc_scores := (top_k (get_scores b (py_iter query)) topk).1 in
   let doc_indices := (top_k (get_scores b (py_iter query)) topk).2 in
   for_each (λ i,
               let* score := index doc_scores i in
               let* pid := index doc_indices i in
               index (wiki_text (self w)) pid)
            (range topk) ;;
   let* texts :=
     for_each (λ i,
                 let* pid := index doc_indices i in
                 index (wiki_text (self w)) pid)
              (range topk) in
   ret (Passages doc_scores texts)) (logged [EvGetScores (py_iter query)] w).
Proof.
  intros Hb Hsum. rewrite retrieve_unfold, Hb. unfold bind at 1.
  rewrite get_relevant_doc_unfold, Hb. cbn zeta.
  destruct (Qeq_bool _ _) eqn:Heq; [by apply Qeq_bool_iff in Heq|].
  by destruct (top_k _ _).
Qed.

(** X4: with the index loaded, a score vector that does not sum to
    zero and has at most one entry per document, and
    [1 <= topk <= number of scores], [retrieve] on a string returns the
    top-k scores and, rank by rank, the text of the document that
    [top_k] put at that rank. *)
Theorem retrieve_single_passages (b : BM25) (query : string) (topk : Z) (w : world) :
  bm25 (self w) = Some (ObjBM25 b) →
  ¬ np.sum (get_scores b (py_iter query)) == 0 →
  (1 <= topk <= Z.of_nat (length (get_scores b (py_iter query))))%Z →
  length (get_scores b (py_iter query)) ≤ length (wiki_text (self w)) →
  ∃ texts,
    (retrieve (AStr query) topk w).1 =
      inr (Passages (top_k (get_scores b (py_iter query)) topk).1 texts)
    ∧ length texts = Z.to_nat topk
    ∧ ∀ r i, (top_k (get_scores b (py_iter query)) topk).2 !! r = Some i →
        texts !! r = wiki_text (self w) !! i.
Proof.
  intros Hb Hsum Hk Hwiki. rewrite (retrieve_single_scored b) by done.
  set (scores := get_scores b (py_iter query)) in *.
  set (w1 := logged _ w). cbn zeta.
  assert (kept (length scores) topk = Z.to_nat topk) as Hkept.
  { unfold kept. rewrite (proj2 (Z.leb_le 0 topk)) by lia. lia. }
  assert (∀ r, r ∈ range topk →
            ∃ i t, (top_k scores topk).2 !! r = Some i
                   ∧ wiki_text (self w) !! i = Some t
                   ∧ is_Some ((top_k scores topk).1 !! r)) as Hrank.
  { intros r Hr. apply range_elem in Hr.
    destruct (lookup_lt_is_Some_2 (top_k scores topk).2 r) as [i Hi];
      [rewrite top_k_length_snd; lia|].
    destruct (top_k_lookup_snd _ _ _ _ Hi) as [s Hs].
    apply lookup_lt_Some in Hs.
    destruct (lookup_lt_is_Some_2 (wiki_text (self w)) i) as [t Ht]; [lia|].
    exists i, t. split_and!; [done..|].
    apply lookup_lt_is_Some_2. rewrite top_k_length_fst. lia. }
  destruct (for_each_ok
              (λ i, let* score := index (top_k scores topk).1 i in
                    let* pid := index (top_k scores topk).2 i in
                    index (wiki_text (self w)) pid) (range topk))
    as (shown & Hshown & _).
  { intros r Hr. destruct (Hrank r Hr) as (i & t & Hi & Ht & [s Hs]).
    exists t. intros w'. unfold bind at 1. rewrite index_unfold, Hs.
    unfold bind at 1. rewrite index_unfold, Hi. by rewrite index_unfold, Ht. }
  destruct (for_each_ok
              (λ i, let* pid := index (top_k scores topk).2 i in
                    index (wiki_text (self w)) pid) (range topk))
    as (texts & Htexts & Hall).
  { intros r Hr. destruct (Hrank r Hr) as (i & t & Hi & Ht & _).
    exists t. intros w'. unfold bind at 1. rewrite index_unfold, Hi.
    by rewrite index_unfold, Ht. }
  exists texts. split_and!.
  - unfold bind at 1. rewrite Hshown. unfold bind at 1. by rewrite Htexts.
  - apply Forall2_length in Hall. rewrite <- Hall. unfold range. by rewrite length_seq.
  - intros r i Hi.
    assert (r < Z.to_nat topk)%nat as Hr.
    { apply lookup_lt_Some in Hi. rewrite top_k_length_snd in Hi. lia. }
    destruct (Forall2_lookup_l _ _ _ _ _ Hall (range_lookup topk r Hr))
      as (t & Ht & Hbody).
    specialize (Hbody w). unfold bind in Hbody.
    rewrite index_unfold, Hi, index_unfold in Hbody.
    rewrite Ht. destruct (wiki_text (self w) !! i); congruence.
Qed.

Lemma retrieve_single_passages_witness :
  bm25 (self demo.ready) = Some (ObjBM25 demo.index_object)
  ∧ ¬ np.sum (get_scores demo.index_object (py_iter "ab")) == 0
  ∧ (1 <= 2 <= Z.of_nat (length (get_scores demo.index_object (py_iter "ab"))))%Z
  ∧ length (get_scores demo.index_object (py_iter "ab"))
      ≤ length (wiki_text (self demo.ready))
  ∧ ∃ texts,
      (retrieve (AStr "ab") 2 demo.ready).1 =
        inr (Passages (top_k (get_scores demo.index_object (py_iter "ab")) 2).1 texts)
      ∧ length texts = Z.to_nat 2.
Proof.
  assert (bm25 (self demo.ready) = Some (ObjBM25 demo.index_object)) as Hb
    by reflexivity.
  assert (¬ np.sum (get_scores demo.index_object (py_iter "ab")) == 0) as Hsum
    by (vm_compute; discriminate).
  assert (length (get_scores demo.index_object (py_iter "ab")) = 2%nat) as Hlen
    by (vm_compute; reflexivity).
  assert (1 <= 2 <= Z.of_nat (length (get_scores demo.index_object (py_iter "ab"))))%Z
    as Hk by (rewrite Hlen; lia).
  assert (length (get_scores demo.index_object (py_iter "ab"))
            ≤ length (wiki_text (self demo.ready))) as Hwiki
    by (rewrite Hlen; vm_compute; lia).
  refine (conj Hb (conj Hsum (conj Hk (conj Hwiki _)))).
  destruct (retrieve_single_passages demo.index_object "ab" 2 demo.ready
              Hb Hsum Hk Hwiki) as (texts & Hr & Hl & _).
  by exists texts.
Defined.

(** X5: asking [retrieve] on a string for more passages than there are
    scores raises [IndexError]: [get_relevant_doc] returns only as many
    entries as there are documents, and the loop that prints the
    passages indexes [doc_scores] up to [topk]. *)
Theorem retrieve_single_topk_too_large (b : BM25) (query : string) (topk : Z) (w : world) :
  bm25 (self w) = Some (ObjBM25 b) →
  ¬ np.sum (get_scores b (py_iter query)) == 0 →
  (Z.of_nat (length (get_scores b (py_iter query))) < topk)%Z →
  (retrieve (AStr query) topk w).1 = inl IndexError.
Proof.
  intros Hb Hsum Hk. rewrite (retrieve_single_scored b) by done.
  set (scores := get_scores b (py_iter query)) in *.
  set (w1 := logged _ w). cbn zeta. unfold bind at 1.
  assert ((for_each
             (λ i, let* score := index (top_k scores topk).1 i in
                   let* pid := index (top_k scores topk).2 i in
                   index (wiki_text (self w)) pid) (range topk) w1).1
          = inl IndexError) as Hloop.
  { apply for_each_raises.
    - intros r w' e _ H.
      apply bind_raises in H as [H|(s & w2 & H)]; [by apply index_raises in H|].
      apply bind_raises in H as [H|(pid & w3 & H)]; by apply index_raises in H.
    - exists (length scores). split; [apply range_elem; lia|].
      intros w'. exists IndexError. unfold bind at 1. rewrite index_unfold.
      rewrite lookup_ge_None_2; [done|].
      rewrite top_k_length_fst. apply kept_le. }
  destruct (for_each _ (range topk) w1) as [[e|shown] w2]; simpl in *; congruence.
Qed.

Lemma retrieve_single_topk_too_large_witness :
  bm25 (self demo.ready) = Some (ObjBM25 demo.index_object)
  ∧ ¬ np.sum (get_scores demo.index_object (py_iter "ab")) == 0
  ∧ (Z.of_nat (length (get_scores demo.index_object (py_iter "ab"))) < 3)%Z
  ∧ (retrieve (AStr "ab") 3 demo.ready).1 = inl IndexError.
Proof.
  assert (bm25 (self demo.ready) = Some (ObjBM25 demo.index_object)) as Hb
    by reflexivity.
  assert (¬ np.sum (get_scores demo.index_object (py_iter "ab")) == 0) as Hsum
    by (vm_compute; discriminate).
  assert (Z.of_nat (length (get_scores demo.index_object (py_iter "ab"))) < 3)%Z
    as Hk by (vm_compute; reflexivity).
  split_and!; [exact Hb | exact Hsum | exact Hk |].
  apply (retrieve_single_topk_too_large demo.index_object "ab" 3 demo.ready Hb Hsum Hk).
Defined.

(** X6: with [topk <= 0], [retrieve] on a string raises nothing and
    returns no passage text at all, next to the scores that the slice
    [[:topk]] leaves: for a negative [topk] the two lists of the result
    differ in length unless the corpus has at most [-topk] documents. *)
Theorem retrieve_single_nonpositive_topk (b : BM25) (query : string) (topk : Z) (w : world) :
  bm25 (self w) = Some (ObjBM25 b) →
  ¬ np.sum (get_scores b (py_iter query)) == 0 →
  (topk <= 0)%Z →
  (retrieve (AStr query) topk w).1 =
    inr (Passages (top_k (get_scores b (py_iter query)) topk).1 [])
  ∧ length (top_k (get_scores b (py_iter query)) topk).1 =
      (if bool_decide (topk = 0%Z) then 0
       else length (get_scores b (py_iter query)) - Z.to_nat (- topk))%nat.
Proof.
  intros Hb Hsum Hk. split.
  - rewrite (retrieve_single_scored b) by done.
    assert (range topk = []) as -> by (unfold range; by rewrite Z2Nat.nonpos).
    done.
  - rewrite top_k_length_fst. unfold kept. case_bool_decide as H0.
    + subst topk. done.
    + rewrite (proj2 (Z.leb_gt 0 topk)) by lia. done.
Qed.

Lemma retrieve_single_nonpositive_topk_witness :
  bm25 (self demo.ready) = Some (ObjBM25 demo.index_object)
  ∧ ¬ np.sum (get_scores demo.index_object (py_iter "ab")) == 0
  ∧ (-1 <= 0)%Z
  ∧ (retrieve (AStr "ab") (-1) demo.ready).1 =
      inr (Passages (top_k (get_scores demo.index_object (py_iter "ab")) (-1)).1 []).
Proof.
  assert (bm25 (self demo.ready) = Some (ObjBM25 demo.index_object)) as Hb
    by reflexivity.
  assert (¬ np.sum (get_scores demo.index_object (py_iter "ab")) == 0) as Hsum
    by (vm_compute; discriminate).
  split_and!; [exact Hb | exact Hsum | lia |].
  apply (retrieve_single_nonpositive_topk demo.index_object "ab" (-1) demo.ready Hb Hsum).
  lia.
Defined.

(** ** The index cache, call after call *)

Lemma emd_path_same w w' : self w' = self w → emd_path w' = emd_path w.
Proof. unfold emd_path. by intros ->. Qed.

(** X7: a build followed by a second call.  When no cache file is there
    and the constructor succeeds, the second [get_sparse_embedding]
    finds the file that the first one wrote, loads from it the very
    object that was built, and does nothing else: no tokenizer call, no
    build, no write. *)
Theorem get_sparse_embedding_twice (BM25Plus : list (list string) → exn + BM25)
    (w : world) (b : BM25) :
  fs w !! emd_path w = None →
  BM25Plus (tokenized_corpus w) = inr b →
  let w1 := (get_sparse_embedding BM25Plus w).2 in
  let w2 := (get_sparse_embedding BM25Plus w1).2 in
  (get_sparse_embedding BM25Plus w1).1 = inr tt
  ∧ bm25 (self w1) = Some (ObjBM25 b)
  ∧ bm25 (self w2) = Some (ObjBM25 b)
  ∧ fs w2 = fs w1
  ∧ trace w2 = trace w1 ++ [EvLoad (emd_path w)].
Proof.
  intros Hmiss Hb. cbn zeta.
  rewrite (get_sparse_embedding_miss BM25Plus w Hmiss), Hb. cbn [snd].
  set (w1 := {| self := _; fs := _; trace := _ |}).
  assert (emd_path w1 = emd_path w) as Hp by reflexivity.
  assert (fs w1 !! emd_path w1 = Some (Pickle (ObjBM25 b))) as Hhit.
  { rewrite Hp. unfold w1. cbn [fs]. by rewrite lookup_insert_eq. }
  rewrite (get_sparse_embedding_hit BM25Plus w1 _ Hhit), Hp.
  by split_and!.
Qed.

Lemma get_sparse_embedding_twice_witness :
  fs demo.fresh !! emd_path demo.fresh = None
  ∧ build demo.score (tokenized_corpus demo.fresh) = inr demo.index_object
  ∧ (get_sparse_embedding (build demo.score) demo.ready).1 = inr tt
  ∧ bm25 (self (get_sparse_embedding (build demo.score) demo.ready).2)
    = Some (ObjBM25 demo.index_object).
Proof.
  assert (fs demo.fresh !! emd_path demo.fresh = None) as Hmiss by reflexivity.
  assert (build demo.score (tokenized_corpus demo.fresh) = inr demo.index_object)
    as Hb by reflexivity.
  destruct (get_sparse_embedding_twice (build demo.score) demo.fresh
              demo.index_object Hmiss Hb) as (H1 & _ & H2 & _).
  by split_and!.
Defined.

(** X8: a truncated cache file is never repaired.  The call raises
    [EOFError] after the one load, without tokenizing or building, and
    leaves [self] and the files as they were, so that the next call
    fails in the same way. *)
Theorem get_sparse_embedding_truncated_stays (BM25Plus : list (list string) → exn + BM25)
    (w : world) :
  fs w !! emd_path w = Some Truncated →
  let w1 := (get_sparse_embedding BM25Plus w).2 in
  (get_sparse_embedding BM25Plus w).1 = inl EOFError
  ∧ self w1 = self w
  ∧ fs w1 = fs w
  ∧ trace w1 = trace w ++ [EvLoad (emd_path w)]
  ∧ (get_sparse_embedding BM25Plus w1).1 = inl EOFError.
Proof.
  intros Hf. cbn zeta. rewrite (get_sparse_embedding_truncated BM25Plus w Hf).
  split_and!; try done.
  by rewrite get_sparse_embedding_truncated.
Qed.

Lemma get_sparse_embedding_truncated_stays_witness :
  fs (init demo.tok "data/" demo.titles demo.texts {[ "data/bm25.bin" := Truncated ]})
    !! emd_path (init demo.tok "data/" demo.titles demo.texts
                   {[ "data/bm25.bin" := Truncated ]}) = Some Truncated
  ∧ (get_sparse_embedding (build demo.score)
       (init demo.tok "data/" demo.titles demo.texts
          {[ "data/bm25.bin" := Truncated ]})).1 = inl EOFError.
Proof.
  assert (fs (init demo.tok "data/" demo.titles demo.texts
                {[ "data/bm25.bin" := Truncated ]})
            !! emd_path (init demo.tok "data/" demo.titles demo.texts
                           {[ "data/bm25.bin" := Truncated ]}) = Some Truncated)
    as Hf by (vm_compute; reflexivity).
  split; [exact Hf|].
  apply (get_sparse_embedding_truncated_stays (build demo.score) _ Hf).
Defined.

(** X9: what is unpickled from the cache file is not checked.  When the
    file holds an object that is not an index (here a list, as the batch
    caches hold), [get_sparse_embedding] stores it in [self.bm25] and
    returns normally; [retrieve] on a string then passes its assertion
    and raises [AttributeError] at the call of [get_scores]. *)
Theorem get_sparse_embedding_unchecked (BM25Plus : list (list string) → exn + BM25)
    (w : world) (o : pyobj) (query : string) (topk : Z) :
  fs w !! emd_path w = Some (Pickle o) →
  (∀ b, o ≠ ObjBM25 b) →
  (get_sparse_embedding BM25Plus w).1 = inr tt
  ∧ bm25 (self (get_sparse_embedding BM25Plus w).2) = Some o
  ∧ (retrieve (AStr query) topk (get_sparse_embedding BM25Plus w).2).1
    = inl AttributeError.
Proof.
  intros Hf Ho. rewrite (get_sparse_embedding_hit BM25Plus w o Hf). cbn [fst snd].
  split_and!; [done..|].
  rewrite retrieve_unfold. cbn [with_bm25 set_bm25 snd self bm25].
  unfold bind at 1. rewrite get_relevant_doc_unfold. cbn [self bm25].
  destruct o as [b| |]; [by destruct (Ho b)|done..].
Qed.

Lemma get_sparse_embedding_unchecked_witness :
  fs (init demo.tok "data/" demo.titles demo.texts
        {[ "data/bm25.bin" := Pickle (ObjIndices [[0%nat]]) ]})
    !! emd_path (init demo.tok "data/" demo.titles demo.texts
                   {[ "data/bm25.bin" := Pickle (ObjIndices [[0%nat]]) ]})
    = Some (Pickle (ObjIndices [[0%nat]]))
  ∧ (∀ b, ObjIndices [[0%nat]] ≠ ObjBM25 b)
  ∧ (retrieve (AStr "a") 1
       (get_sparse_embedding (build demo.score)
          (init demo.tok "data/" demo.titles demo.texts
             {[ "data/bm25.bin" := Pickle (ObjIndices [[0%nat]]) ]})).2).1
    = inl AttributeError.
Proof.
  assert (fs (init demo.tok "data/" demo.titles demo.texts
                {[ "data/bm25.bin" := Pickle (ObjIndices [[0%nat]]) ]})
            !! emd_path (init demo.tok "data/" demo.titles demo.texts
                           {[ "data/bm25.bin" := Pickle (ObjIndices [[0%nat]]) ]})
          = Some (Pickle (ObjIndices [[0%nat]]))) as Hf
    by (vm_compute; reflexivity).
  assert (∀ b, ObjIndices [[0%nat]] ≠ ObjBM25 b) as Ho by (intros b; discriminate).
  split_and!; [exact Hf | exact Ho |].
  apply (get_sparse_embedding_unchecked (build demo.score) _ _ "a" 1 Hf Ho).
Defined.



(** X11: [get_sparse_embedding] assigns nothing but [self.bm25] and
    writes no file but the index cache: the tokenizer, the data path and
    the corpus columns of [self] are as before, and so is every file at
    another path. *)
Theorem get_sparse_embedding_frame (BM25Plus : list (list string) → exn + BM25)
    (w : world) :
  let w1 := (get_sparse_embedding BM25Plus w).2 in
  tokenize_fn (self w1) = tokenize_fn (self w)
  ∧ data_path (self w1) = data_path (self w)
  ∧ wiki_text (self w1) = wiki_text (self w)
  ∧ wiki_title (self w1) = wiki_title (self w)
  ∧ ∀ path, path ≠ emd_path w → fs w1 !! path = fs w !! path.
Proof.
  cbn zeta. destruct (fs w !! emd_path w) as [[|o]|] eqn:Hf.
  - by rewrite get_sparse_embedding_truncated.
  - by rewrite (get_sparse_embedding_hit BM25Plus w o Hf).
  - rewrite get_sparse_embedding_miss by done. cbn zeta.
    destruct (BM25Plus (tokenized_corpus w)); [done|].
    split_and!; try done. intros path Hp. cbn [snd fs].
    by rewrite !lookup_insert_ne.
Qed.

(** ** The batch cache, call after call *)

Lemma append_inj_r (a b1 b2 : string) : (a +:+ b1 = a +:+ b2)%string → b1 = b2.
Proof. induction a as [|c a IH]; simpl; [done|]. intros [= H]. by apply IH. Qed.

Lemma os_path_join_inj a b1 b2 : os_path_join a b1 = os_path_join a b2 → b1 = b2.
Proof.
  unfold os_path_join. case_bool_decide; [done|].
  destruct (ends_with_slash a).
  - apply append_inj_r.
  - intros Hj. apply append_inj_r in Hj. simpl in Hj. by injection Hj.
Qed.

Lemma score_indice_distinct w : score_path w ≠ indice_path w.
Proof. intros H. by apply os_path_join_inj in H. Qed.

Lemma get_relevant_doc_bulk_miss queries k w :
  ¬ (is_Some (fs w !! score_path w) ∧ is_Some (fs w !! indice_path w)) →
  get_relevant_doc_bulk queries k w =
  (let* found :=
     for_each (λ query,
                 let* tokenized_query := tokenize_query query in
                 let* query_scores := call_get_scores tokenized_query in
                 ret (top_k query_scores k))
              queries in
   assert (negb (Qeq_bool (np.sum (concat (found.*1))) 0)) NoVocabMatch ;;
   open_wb (score_path w) ;;
   pickle_dump (score_path w) (ObjScores (found.*1)) ;;
   open_wb (indice_path w) ;;
   pickle_dump (indice_path w) (ObjIndices (found.*2)) ;;
   ret (ObjScores (found.*1), ObjIndices (found.*2))) w.
Proof.
  intros Hmiss. unfold get_relevant_doc_bulk.
  unfold bind at 1, get_self. unfold bind at 1, os_path_isfile at 1.
  unfold bind at 1, os_path_isfile at 1.
  fold (score_path w). fold (indice_path w).
  destruct (bool_decide (is_Some (fs w !! score_path w))) eqn:Hs;
    destruct (bool_decide (is_Some (fs w !! indice_path w))) eqn:Hi; try done.
  apply bool_decide_eq_true in Hs, Hi. by destruct Hmiss.
Qed.

Lemma batch_loop b k (queries : list string) w :
  bm25 (self w) = Some (ObjBM25 b) →
  for_each (λ query,
              let* tokenized_query := tokenize_query query in
              let* query_scores := call_get_scores tokenized_query in
              ret (top_k query_scores k))
           (Str <$> queries) w =
  (inr (batch_top_k b (tokenize_fn (self w)) k queries),
   logged (batch_calls (tokenize_fn (self w)) queries) w).
Proof.
  revert w. induction queries as [|query queries IH]; intros w Hb.
  - simpl. unfold ret. by rewrite logged_nil.
  - rewrite fmap_cons. cbn [for_each]. unfold bind at 1.
    assert ((let* tokenized_query := tokenize_query (Str query) in
             let* query_scores := call_get_scores tokenized_query in
             ret (top_k query_scores k)) w
            = (inr (top_k (get_scores b (tokenize_fn (self w) query)) k),
               logged [EvTokenize query; EvGetScores (tokenize_fn (self w) query)] w))
      as ->.
    { unfold bind, tokenize_query, call_tokenize_fn, call_get_scores, bind, get_self,
        log, ret. cbn [self fst snd]. rewrite Hb. unfold logged.
      cbn [self fs trace]. by rewrite <- app_assoc. }
    unfold bind at 1. rewrite IH by done. cbn [self logged].
    unfold ret. by rewrite logged_logged.
Qed.

Lemma get_relevant_doc_bulk_computed b k (queries : list string) w :
  bm25 (self w) = Some (ObjBM25 b) →
  ¬ (is_Some (fs w !! score_path w) ∧ is_Some (fs w !! indice_path w)) →
  get_relevant_doc_bulk (Str <$> queries) k w =
  let found := batch_top_k b (tokenize_fn (self w)) k queries in
  let calls := batch_calls (tokenize_fn (self w)) queries in
  if Qeq_bool (np.sum (concat (found.*1))) 0
  then (inl (AssertionError NoVocabMatch), logged calls w)
  else (inr (ObjScores (found.*1), ObjIndices (found.*2)),
        {| self := self w;
           fs := <[indice_path w := Pickle (ObjIndices (found.*2))]>
                   (<[score_path w := Pickle (ObjScores (found.*1))]> (fs w));
           trace := trace w ++ calls
                      ++ [EvOpenW (score_path w);
                          EvDump (score_path w) (ObjScores (found.*1));
                          EvOpenW (indice_path w);
                          EvDump (indice_path w) (ObjIndices (found.*2))] |}).
Proof.
  intros Hb Hmiss. rewrite get_relevant_doc_bulk_miss by done.
  unfold bind at 1. rewrite (batch_loop b) by done. cbn zeta.
  destruct (Qeq_bool _ _); [done|].
  unfold bind, assert, open_wb, pickle_dump, bind, log, write_file, ret, logged.
  cbn [self fs trace negb]. rewrite !insert_insert_eq.
  by rewrite <- !app_assoc.
Qed.

(** X12: a batch that finds no complete cache (one of the two files is
    missing) tokenizes and scores every query string, in order, and
    checks the assertion once, on the sum of all the top-k scores of the
    batch.  When that sum is zero the call raises and writes nothing;
    otherwise it returns, query by query, the top-k of the scores of the
    query's tokens, and leaves exactly that in the two cache files. *)
Theorem get_relevant_doc_bulk_fresh (b : BM25) (k : Z) (queries : list string) (w : world) :
  bm25 (self w) = Some (ObjBM25 b) →
  ¬ (is_Some (fs w !! score_path w) ∧ is_Some (fs w !! indice_path w)) →
  let found := batch_top_k b (tokenize_fn (self w)) k queries in
  let run := get_relevant_doc_bulk (Str <$> queries) k w in
  trace w ++ batch_calls (tokenize_fn (self w)) queries `prefix_of` trace run.2
  ∧ (np.sum (concat (found.*1)) == 0 →
       run.1 = inl (AssertionError NoVocabMatch) ∧ fs run.2 = fs w)
  ∧ (¬ np.sum (concat (found.*1)) == 0 →
       run.1 = inr (ObjScores (found.*1), ObjIndices (found.*2))
       ∧ fs run.2 !! score_path w = Some (Pickle (ObjScores (found.*1)))
       ∧ fs run.2 !! indice_path w = Some (Pickle (ObjIndices (found.*2)))).
Proof.
  intros Hb Hmiss. cbn zeta. rewrite (get_relevant_doc_bulk_computed b) by done.
  cbn zeta. destruct (Qeq_bool _ _) eqn:Hsum.
  - apply Qeq_bool_iff in Hsum. cbn [fst snd logged trace fs].
    split_and!; [reflexivity | done | intros Hn; by destruct Hn].
  - assert (¬ np.sum (concat (batch_top_k b (tokenize_fn (self w)) k queries).*1) == 0)
      as Hne by (intros H; apply Qeq_bool_iff in H; congruence).
    cbn [fst snd trace fs]. split_and!.
    + rewrite app_assoc. by eexists.
    + done.
    + intros _. split_and!; [done| |by rewrite lookup_insert_eq].
      rewrite lookup_insert_ne by (intros H; by apply (score_indice_distinct w)).
      by rewrite lookup_insert_eq.
Qed.

Lemma get_relevant_doc_bulk_fresh_witness :
  bm25 (self demo.ready) = Some (ObjBM25 demo.index_object)
  ∧ ¬ (is_Some (fs demo.ready !! score_path demo.ready)
       ∧ is_Some (fs demo.ready !! indice_path demo.ready))
  ∧ trace demo.ready ++ batch_calls (tokenize_fn (self demo.ready)) ["dog"; "xyz"]
      `prefix_of` trace (get_relevant_doc_bulk (Str <$> ["dog"; "xyz"]) 1 demo.ready).2.
Proof.
  assert (bm25 (self demo.ready) = Some (ObjBM25 demo.index_object)) as Hb
    by reflexivity.
  assert (¬ (is_Some (fs demo.ready !! score_path demo.ready)
             ∧ is_Some (fs demo.ready !! indice_path demo.ready))) as Hmiss.
  { intros [[f Hf] _]. vm_compute in Hf. discriminate Hf. }
  split_and!; [exact Hb | exact Hmiss |].
  apply (get_relevant_doc_bulk_fresh demo.index_object 1 ["dog"; "xyz"] demo.ready
           Hb Hmiss).
Defined.

(** X13: the batch cache answers every later batch.  After a batch
    that was computed and returned normally, a second call returns the
    result of the first, whatever queries and [k] it is given, and makes
    no call but the two loads. *)
Theorem get_relevant_doc_bulk_twice (b : BM25) (k : Z) (queries : list string) (w : world)
    (queries' : list value) (k' : Z) :
  bm25 (self w) = Some (ObjBM25 b) →
  ¬ (is_Some (fs w !! score_path w) ∧ is_Some (fs w !! indice_path w)) →
  ¬ np.sum (concat ((batch_top_k b (tokenize_fn (self w)) k queries).*1)) == 0 →
  let w1 := (get_relevant_doc_bulk (Str <$> queries) k w).2 in
  get_relevant_doc_bulk queries' k' w1 =
    ((get_relevant_doc_bulk (Str <$> queries) k w).1,
     logged [EvLoad (score_path w); EvLoad (indice_path w)] w1).
Proof.
  intros Hb Hmiss Hsum. cbn zeta.
  rewrite (get_relevant_doc_bulk_computed b k queries w) by done. cbn zeta.
  destruct (Qeq_bool _ _) eqn:Heq; [by apply Qeq_bool_iff in Heq|].
  cbn [fst snd].
  set (w1 := {| self := _; fs := _; trace := _ |}).
  assert (score_path w1 = score_path w) as Hsp by reflexivity.
  assert (indice_path w1 = indice_path w) as Hip by reflexivity.
  assert (fs w1 !! score_path w1 = Some (Pickle (ObjScores
            (batch_top_k b (tokenize_fn (self w)) k queries).*1))) as Hs.
  { rewrite Hsp. unfold w1. cbn [fs].
    rewrite lookup_insert_ne by (intros H; by apply (score_indice_distinct w)).
    by rewrite lookup_insert_eq. }
  assert (fs w1 !! indice_path w1 = Some (Pickle (ObjIndices
            (batch_top_k b (tokenize_fn (self w)) k queries).*2))) as Hi.
  { rewrite Hip. unfold w1. cbn [fs]. by rewrite lookup_insert_eq. }
  rewrite get_relevant_doc_bulk_hit by (by rewrite ?Hs, ?Hi).
  unfold bind at 1. rewrite pickle_load_unfold, Hs.
  unfold bind at 1. rewrite pickle_load_unfold. cbn [fs logged]. rewrite Hi.
  unfold ret. rewrite logged_logged. by rewrite Hsp, Hip.
Qed.

Lemma get_relevant_doc_bulk_twice_witness :
  bm25 (self demo.ready) = Some (ObjBM25 demo.index_object)
  ∧ ¬ (is_Some (fs demo.ready !! score_path demo.ready)
       ∧ is_Some (fs demo.ready !! indice_path demo.ready))
  ∧ ¬ np.sum (concat ((batch_top_k demo.index_object (tokenize_fn (self demo.ready))
                         1 ["dog"]).*1)) == 0
  ∧ (get_relevant_doc_bulk [Str "a"; Str "b"] 2
       (get_relevant_doc_bulk (Str <$> ["dog"]) 1 demo.ready).2).1
    = (get_relevant_doc_bulk (Str <$> ["dog"]) 1 demo.ready).1.
Proof.
  assert (bm25 (self demo.ready) = Some (ObjBM25 demo.index_object)) as Hb
    by reflexivity.
  assert (¬ (is_Some (fs demo.ready !! score_path demo.ready)
             ∧ is_Some (fs demo.ready !! indice_path demo.ready))) as Hmiss.
  { intros [[f Hf] _]. vm_compute in Hf. discriminate Hf. }
  assert (¬ np.sum (concat ((batch_top_k demo.index_object
                               (tokenize_fn (self demo.ready)) 1 ["dog"]).*1)) == 0)
    as Hsum by (vm_compute; discriminate).
  split_and!; [exact Hb | exact Hmiss | exact Hsum |].
  by rewrite (get_relevant_doc_bulk_twice demo.index_object 1 ["dog"] demo.ready
                [Str "a"; Str "b"] 2 Hb Hmiss Hsum).
Defined.

(** X14: an empty batch is rejected.  With no complete batch cache, the
    empty list of queries sums to zero and [get_relevant_doc_bulk]
    raises the vocabulary assertion without calling anything or writing
    anything; so does [retrieve] on a dataset of zero records. *)
Theorem get_relevant_doc_bulk_empty (k : Z) (w : world) :
  ¬ (is_Some (fs w !! score_path w) ∧ is_Some (fs w !! indice_path w)) →
  get_relevant_doc_bulk [] k w = (inl (AssertionError NoVocabMatch), w)
  ∧ (is_Some (bm25 (self w)) →
     retrieve (ADataset []) k w = (inl (AssertionError NoVocabMatch), w)).
Proof.
  intros Hmiss.
  assert (get_relevant_doc_bulk [] k w = (inl (AssertionError NoVocabMatch), w)) as Hrun
    by (by rewrite get_relevant_doc_bulk_miss).
  split; [done|]. intros [o Ho]. rewrite retrieve_unfold, Ho.
  unfold bind at 1. cbn [column for_each ret]. unfold bind at 1. by rewrite Hrun.
Qed.

Lemma get_relevant_doc_bulk_empty_witness :
  ¬ (is_Some (fs demo.ready !! score_path demo.ready)
     ∧ is_Some (fs demo.ready !! indice_path demo.ready))
  ∧ get_relevant_doc_bulk [] 1 demo.ready
    = (inl (AssertionError NoVocabMatch), demo.ready).
Proof.
  assert (¬ (is_Some (fs demo.ready !! score_path demo.ready)
             ∧ is_Some (fs demo.ready !! indice_path demo.ready))) as Hmiss.
  { intros [[f Hf] _]. vm_compute in Hf. discriminate Hf. }
  split; [exact Hmiss|].
  apply (get_relevant_doc_bulk_empty 1 demo.ready Hmiss).
Defined.

(** ** What retrieval leaves alone *)

Lemma quiet_refl w : quiet w w.
Proof. by split. Qed.

Lemma quiet_trans w1 w2 w3 : quiet w1 w2 → quiet w2 w3 → quiet w1 w3.
Proof. intros [H1 H2] [H3 H4]. split; congruence. Qed.

Lemma quiet_logged e w : quiet w (logged e w).
Proof. by split. Qed.

Lemma bind_quiet {A B} (m : M A) (k : A → M B) w :
  quiet w (m w).2 →
  (∀ a w1, quiet w1 (k a w1).2) →
  quiet w (bind m k w).2.
Proof.
  intros Hm Hk. unfold bind. destruct (m w) as [[e|a] w1]; [done|].
  eapply quiet_trans; [exact Hm | apply Hk].
Qed.

Lemma for_each_quiet {A B} (body : A → M B) l w :
  (∀ x w1, quiet w1 (body x w1).2) → quiet w (for_each body l w).2.
Proof.
  intros Hbody. revert w. induction l as [|x l IH]; intros w; [apply quiet_refl|].
  simpl. apply bind_quiet; [apply Hbody|]. intros y w1.
  apply bind_quiet; [apply IH|]. intros ys w2. apply quiet_refl.
Qed.

Lemma index_quiet {A} (l : list A) i w : quiet w (index l i w).2.
Proof. rewrite index_unfold. apply quiet_refl. Qed.

Lemma getitem_quiet d key w : quiet w (getitem d key w).2.
Proof. rewrite getitem_unfold. apply quiet_refl. Qed.

Lemma get_relevant_doc_quiet query k w : quiet w (get_relevant_doc query k w).2.
Proof.
  rewrite get_relevant_doc_unfold.
  destruct (bm25 (self w)) as [[b| |]|]; try apply quiet_refl. apply quiet_logged.
Qed.

Lemma tokenize_query_quiet query w : quiet w (tokenize_query query w).2.
Proof. destruct query; try apply quiet_refl. apply quiet_logged. Qed.

Lemma call_get_scores_quiet query w : quiet w (call_get_scores query w).2.
Proof.
  unfold call_get_scores, bind, get_self.
  destruct (bm25 (self w)) as [[b| |]|]; try apply quiet_refl. apply quiet_logged.
Qed.

Lemma make_row_quiet wiki doc_indices idx example w :
  quiet w (make_row wiki doc_indices idx example w).2.
Proof.
  unfold make_row.
  apply bind_quiet; [apply getitem_quiet|]. intros question w1.
  apply bind_quiet; [apply getitem_quiet|]. intros id w2.
  apply bind_quiet.
  { unfold indices_at. destruct doc_indices; try apply quiet_refl. apply index_quiet. }
  intros context_id w3.
  apply bind_quiet; [apply for_each_quiet; intros; apply index_quiet|].
  intros passages w4.
  destruct (in_keys "context" example && in_keys "answers" example);
    [|apply quiet_refl].
  apply bind_quiet; [apply getitem_quiet|]. intros context w5.
  apply bind_quiet; [apply getitem_quiet|]. intros answers w6. apply quiet_refl.
Qed.

(** X15: single-query retrieval is never cached and changes nothing.
    Whatever it returns or raises, [retrieve] on a string leaves [self]
    and every file as they were. *)
Theorem retrieve_single_quiet (query : string) (topk : Z) (w : world) :
  self (retrieve (AStr query) topk w).2 = self w
  ∧ fs (retrieve (AStr query) topk w).2 = fs w.
Proof.
  change (quiet w (retrieve (AStr query) topk w).2).
  rewrite retrieve_unfold. destruct (bm25 (self w)); [|apply quiet_refl].
  apply bind_quiet; [apply get_relevant_doc_quiet|]. intros [doc_scores doc_indices] w1.
  apply bind_quiet.
  { apply for_each_quiet. intros i w2.
    apply bind_quiet; [apply index_quiet|]. intros score w3.
    apply bind_quiet; [apply index_quiet|]. intros pid w4. apply index_quiet. }
  intros shown w2. apply bind_quiet.
  { apply for_each_quiet. intros i w3.
    apply bind_quiet; [apply index_quiet|]. intros pid w4. apply index_quiet. }
  intros texts w3. apply quiet_refl.
Qed.

Lemma quiet_batch_frame w w' : quiet w w' → batch_frame w w'.
Proof. intros [H1 H2]. split; [done|]. intros. by rewrite H2. Qed.

Lemma batch_frame_trans w1 w2 w3 :
  batch_frame w1 w2 → batch_frame w2 w3 → batch_frame w1 w3.
Proof.
  intros [H1 H2] [H3 H4]. split; [congruence|]. intros path Hs Hi.
  rewrite H4, H2; [done..| |]; unfold score_path, indice_path in *; by rewrite H1.
Qed.

Lemma get_relevant_doc_bulk_frame queries k w :
  batch_frame w (get_relevant_doc_bulk queries k w).2.
Proof.
  destruct (decide (is_Some (fs w !! score_path w) ∧ is_Some (fs w !! indice_path w)))
    as [[Hs Hi]|Hmiss].
  - rewrite get_relevant_doc_bulk_hit by done. apply quiet_batch_frame.
    apply bind_quiet; [rewrite pickle_load_unfold; apply quiet_logged|].
    intros ds w1. apply bind_quiet; [rewrite pickle_load_unfold; apply quiet_logged|].
    intros di w2. apply quiet_refl.
  - rewrite get_relevant_doc_bulk_miss by done. unfold bind at 1.
    assert (quiet w (for_each
                       (λ query,
                          let* tokenized_query := tokenize_query query in
                          let* query_scores := call_get_scores tokenized_query in
                          ret (top_k query_scores k)) queries w).2) as Hloop.
    { apply for_each_quiet. intros query w2.
      apply bind_quiet; [apply tokenize_query_quiet|].
      intros tokens w3. apply bind_quiet; [apply call_get_scores_quiet|].
      intros scores w4. apply quiet_refl. }
    destruct (for_each _ queries w) as [[e|found] w1]; cbn [snd] in Hloop;
      [by apply quiet_batch_frame|].
    destruct Hloop as [H1 H2]. unfold bind at 1, assert.
    destruct (negb _).
    + unfold bind, open_wb, pickle_dump, bind, log, write_file, ret.
      cbn [self fs snd fst]. split; [done|]. intros path Hs Hi. cbn [fs].
      by rewrite !lookup_insert_ne, H2.
    + unfold raise. by apply quiet_batch_frame.
Qed.

(** X16: batch retrieval changes nothing in [self] and touches no file
    but its own two caches: after [retrieve] on a dataset, whatever it
    returned or raised, every file at a path other than
    [BM25_score.bin] and [BM25_indice.bin] of the data directory, the
    index cache among them, is as before. *)
Theorem retrieve_batch_frame (d : Dataset) (topk : Z) (w : world) :
  self (retrieve (ADataset d) topk w).2 = self w
  ∧ ∀ path, path ≠ score_path w → path ≠ indice_path w →
      fs (retrieve (ADataset d) topk w).2 !! path = fs w !! path.
Proof.
  change (batch_frame w (retrieve (ADataset d) topk w).2).
  rewrite retrieve_unfold. destruct (bm25 (self w)); [|by apply quiet_batch_frame].
  unfold bind at 1.
  assert (quiet w (column d "question" w).2) as Hcol
    by (apply for_each_quiet; intros; apply getitem_quiet).
  destruct (column d "question" w) as [[e|questions] w1]; cbn [snd] in Hcol;
    [by apply quiet_batch_frame|].
  unfold bind at 1.
  pose proof (get_relevant_doc_bulk_frame questions topk w1) as Hbulk.
  destruct (get_relevant_doc_bulk questions topk w1) as [[e|[ds di]] w2];
    cbn [snd] in Hbulk.
  { eapply batch_frame_trans; [by apply quiet_batch_frame | exact Hbulk]. }
  unfold bind at 1.
  assert (quiet w2 (for_each
                      (λ '(idx, example), make_row (wiki_text (self w)) di idx example)
                      (np.enumerate d) w2).2) as Hrows
    by (apply for_each_quiet; intros [idx example] w4; apply make_row_quiet).
  eapply batch_frame_trans; [by apply quiet_batch_frame|].
  eapply batch_frame_trans; [exact Hbulk|]. apply quiet_batch_frame.
  destruct (for_each _ (np.enumerate d) w2) as [[e|total] w3]; exact Hrows.
Qed.

(** X17: the three cache files never collide: whatever the data path
    is, the index cache and the two batch caches are at three different
    paths. *)
Theorem cache_paths_distinct (w : world) :
  emd_path w ≠ score_path w
  ∧ emd_path w ≠ indice_path w
  ∧ score_path w ≠ indice_path w.
Proof.
  split_and!; intros H; by apply os_path_join_inj in H.
Qed.

(** ** Batch retrieval, record by record *)




Lemma make_row_retrieved wiki doc_indices idx example w row w' :
  make_row wiki doc_indices idx example w = (inr row, w') →
  ∃ context_id passages,
    (indices_at doc_indices idx w).1 = inr context_id
    ∧ row !! "context_id" = Some (IntArray context_id)
    ∧ row !! "context" = Some (Str (join " " passages))
    ∧ Forall2 (λ pid text, wiki !! pid = Some text) context_id passages.
Proof.
  unfold make_row.
  unfold bind at 1. rewrite getitem_unfold.
  destruct (example !! "question") as [question|]; [|done].
  unfold bind at 1. rewrite getitem_unfold.
  destruct (example !! "id") as [id|]; [|done].
  unfold bind at 1.
  assert ((indices_at doc_indices idx w).2 = w) as Hw.
  { unfold indices_at. destruct doc_indices; try done. by rewrite index_unfold. }
  destruct (indices_at doc_indices idx w) as [[e|context_id] w1]; [done|].
  simpl in Hw. subst w1. unfold bind at 1.
  destruct (for_each _ context_id w) as [[e|passages] w2] eqn:Hloop; [done|].
  apply for_each_inr in Hloop.
  assert (Forall2 (λ pid text, wiki !! pid = Some text) context_id passages) as Hall.
  { eapply Forall2_impl; [exact Hloop|]. intros pid text (w3 & w4 & H).
    rewrite index_unfold in H. destruct (wiki !! pid); congruence. }
  intros Hrow. exists context_id, passages. split; [done|].
  destruct (in_keys "context" example && in_keys "answers" example).
  - revert Hrow. unfold bind at 1. rewrite getitem_unfold.
    destruct (example !! "context"); [|done].
    unfold bind at 1. rewrite getitem_unfold.
    destruct (example !! "answers"); [|done].
    intros [= <- <-]. by simplify_map_eq.
  - injection Hrow as <- <-. by simplify_map_eq.
Qed.

(** X19: in every row that batch retrieval returns, [context_id] is an
    array of document ordinals and [context] is the texts of exactly
    those documents, in that order, joined by single spaces.  The
    [context] of the row is the retrieved text, not the [context] of the
    input record. *)
Theorem retrieve_batch_context (d : Dataset) (topk : Z) (w w' : world)
    (rows : list (gmap string value)) :
  retrieve (ADataset d) topk w = (inr (DataFrame rows), w') →
  ∀ i row, rows !! i = Some row →
    ∃ context_id passages,
      row !! "context_id" = Some (IntArray context_id)
      ∧ row !! "context" = Some (Str (join " " passages))
      ∧ Forall2 (λ pid text, wiki_text (self w) !! pid = Some text)
          context_id passages.
Proof.
  rewrite retrieve_unfold. destruct (bm25 (self w)); [|done].
  unfold bind at 1. destruct (column d "question" w) as [[e|questions] w1]; [done|].
  unfold bind at 1.
  destruct (get_relevant_doc_bulk questions topk w1) as [[e|[ds di]] w2]; [done|].
  unfold bind at 1.
  destruct (for_each _ (np.enumerate d) w2) as [[e|total] w3] eqn:Hrows; [done|].
  intros [= <- <-] i row Hrow. apply for_each_inr in Hrows.
  destruct (Forall2_lookup_r _ _ _ _ _ Hrows Hrow)
    as ([idx example] & _ & w4 & w5 & Hmk).
  apply make_row_retrieved in Hmk as (context_id & passages & _ & H1 & H2 & H3).
  by exists context_id, passages.
Qed.

Lemma retrieve_batch_context_witness :
  ∃ rows w',
    retrieve (ADataset demo.validation) 1 demo.ready = (inr (DataFrame rows), w')
    ∧ ∀ i row, rows !! i = Some row →
        ∃ context_id passages,
          row !! "context_id" = Some (IntArray context_id)
          ∧ row !! "context" = Some (Str (join " " passages)).
Proof.
  destruct (retrieve (ADataset demo.validation) 1 demo.ready)
    as [[e|[ | rows | ]] w'] eqn:H;
    try (vm_compute in H; discriminate H).
  exists rows, w'. split; [reflexivity|]. intros i row Hrow.
  destruct (retrieve_batch_context demo.validation 1 demo.ready w' rows H i row Hrow)
    as (context_id & passages & H1 & H2 & _).
  by exists context_id, passages.
Defined.

Lemma for_each_raises_inv {A B} (body : A → M B) l w e :
  (for_each body l w).1 = inl e → ∃ x w1, x ∈ l ∧ (body x w1).1 = inl e.
Proof.
  revert w. induction l as [|x l IH]; intros w; [done|].
  simpl. intros H. apply bind_raises in H as [H|(y & w1 & H)].
  - exists x, w. split; [left | done].
  - apply bind_raises in H as [H|(ys & w2 & H)]; [|done].
    destruct (IH w1 H) as (x' & w3 & Hin & Hx'). exists x', w3. split; [by right | done].
Qed.

Lemma make_row_raises wiki l idx example w e :
  is_Some (example !! "question") → is_Some (example !! "id") →
  (make_row wiki (ObjIndices l) idx example w).1 = inl e → e = IndexError.
Proof.
  intros [question Hq] [id Hid]. unfold make_row. intros H.
  apply bind_raises in H as [H|(a1 & w1 & H)];
    [by rewrite getitem_unfold, Hq in H|].
  apply bind_raises in H as [H|(a2 & w2 & H)];
    [by rewrite getitem_unfold, Hid in H|].
  apply bind_raises in H as [H|(a3 & w3 & H)]; [by apply index_raises in H|].
  apply bind_raises in H as [H|(a4 & w4 & H)].
  { apply for_each_raises_inv in H as (pid & w5 & _ & H). by apply index_raises in H. }
  unfold in_keys in H.
  destruct (example !! "context") as [context|] eqn:Hc;
    destruct (example !! "answers") as [answers|] eqn:Ha; try done.
  rewrite !bool_decide_eq_true_2 in H by by eexists. cbn [andb] in H.
  apply bind_raises in H as [H|(a5 & w5 & H)];
    [by rewrite getitem_unfold, Hc in H|].
  apply bind_raises in H as [H|(a6 & w6 & H)];
    [by rewrite getitem_unfold, Ha in H | done].
Qed.

(** X20: the batch cache is not checked against the dataset.  When the
    cached indices hold fewer entries than the dataset has records,
    each of which has its [question] and [id], [retrieve] takes the
    cache and raises [IndexError] at the first record without an
    entry. *)
Theorem retrieve_batch_short_cache (d : Dataset) (topk : Z) (w : world)
    (doc_scores : pyobj) (cached : list (list nat)) :
  is_Some (bm25 (self w)) →
  (∀ example, example ∈ d →
     is_Some (example !! "question") ∧ is_Some (example !! "id")) →
  fs w !! score_path w = Some (Pickle doc_scores) →
  fs w !! indice_path w = Some (Pickle (ObjIndices cached)) →
  (length cached < length d)%nat →
  (retrieve (ADataset d) topk w).1 = inl IndexError.
Proof.
  intros [o Ho] Hd Hs Hi Hlen. rewrite retrieve_unfold, Ho.
  destruct (for_each_ok (λ example, getitem example "question") d)
    as (questions & Hcol & _).
  { intros example Hin. destruct (Hd example Hin) as [[question Hq] _].
    exists question. intros w1. by rewrite getitem_unfold, Hq. }
  unfold bind at 1. unfold column. rewrite Hcol.
  unfold bind at 1. rewrite get_relevant_doc_bulk_hit by (by rewrite ?Hs, ?Hi).
  unfold bind at 1. rewrite pickle_load_unfold, Hs.
  unfold bind at 1. rewrite pickle_load_unfold. cbn [fs logged]. rewrite Hi.
  unfold ret at 1. unfold bind at 1.
  set (w2 := logged _ (logged _ w)).
  assert ((for_each
             (λ '(idx, example),
                make_row (wiki_text (self w)) (ObjIndices cached) idx example)
             (np.enumerate d) w2).1 = inl IndexError) as Hraise.
  { apply for_each_raises.
    - intros [idx example] w3 e Hin. apply list_elem_of_lookup in Hin as [r Hr].
      apply enumerate_lookup in Hr as [_ Hr]. apply list_elem_of_lookup_2 in Hr.
      destruct (Hd example Hr). by apply make_row_raises.
    - destruct (lookup_lt_is_Some_2 d (length cached) Hlen) as [example Hex].
      exists (length cached, example). split.
      { eapply list_elem_of_lookup_2. by apply enumerate_lookup. }
      destruct (Hd example) as [[question Hq] [id Hid]];
        [by eapply list_elem_of_lookup_2|].
      intros w3. exists IndexError. unfold make_row.
      unfold bind at 1. rewrite getitem_unfold, Hq.
      unfold bind at 1. rewrite getitem_unfold, Hid.
      unfold bind at 1. unfold indices_at. rewrite index_unfold.
      by rewrite lookup_ge_None_2. }
  destruct (for_each _ (np.enumerate d) w2) as [[e|total] w3]; simpl in *; congruence.
Qed.

Lemma retrieve_batch_short_cache_witness :
  is_Some (bm25 (self demo.cached))
  ∧ (∀ example, example ∈ demo.validation ++ demo.validation →
       is_Some (example !! "question") ∧ is_Some (example !! "id"))
  ∧ fs demo.cached !! score_path demo.cached = Some (Pickle (ObjScores [[1]]))
  ∧ fs demo.cached !! indice_path demo.cached = Some (Pickle (ObjIndices [[1%nat]]))
  ∧ (length [[1%nat]] < length (demo.validation ++ demo.validation))%nat
  ∧ (retrieve (ADataset (demo.validation ++ demo.validation)) 1 demo.cached).1
    = inl IndexError.
Proof.
  assert (is_Some (bm25 (self demo.cached))) as Hb by (eexists; reflexivity).
  assert (∀ example, example ∈ demo.validation ++ demo.validation →
            is_Some (example !! "question") ∧ is_Some (example !! "id")) as Hd.
  { intros example Hin.
    repeat (apply elem_of_cons in Hin as [->|Hin];
            [split; eexists; vm_compute; reflexivity|]).
    by apply elem_of_nil in Hin. }
  assert (fs demo.cached !! score_path demo.cached = Some (Pickle (ObjScores [[1]])))
    as Hs by (vm_compute; reflexivity).
  assert (fs demo.cached !! indice_path demo.cached
          = Some (Pickle (ObjIndices [[1%nat]]))) as Hi by (vm_compute; reflexivity).
  assert (length [[1%nat]] < length (demo.validation ++ demo.validation))%nat as Hlen
    by (simpl; lia).
  split_and!; [exact Hb | exact Hd | exact Hs | exact Hi | exact Hlen |].
  apply (retrieve_batch_short_cache _ 1 demo.cached _ _ Hb Hd Hs Hi Hlen).
Defined.

(** ** The two scoring methods called directly *)

(** X21: only [retrieve] checks that the index is there.  On a
    retriever whose [self.bm25] is [None], [get_relevant_doc] raises
    [AttributeError] at once, and [get_relevant_doc_bulk], when it finds
    no complete cache, raises it after having tokenized the first
    query. *)
Theorem scoring_unguarded (query : string) (rest : list value) (k : Z) (w : world) :
  bm25 (self w) = None →
  get_relevant_doc query k w = (inl AttributeError, w)
  ∧ (¬ (is_Some (fs w !! score_path w) ∧ is_Some (fs w !! indice_path w)) →
     get_relevant_doc_bulk (Str query :: rest) k w
     = (inl AttributeError, logged [EvTokenize query] w)).
Proof.
  intros Hnone. split; [by rewrite get_relevant_doc_unfold, Hnone|].
  intros Hmiss. rewrite get_relevant_doc_bulk_miss by done.
  unfold bind at 1. cbn [for_each]. unfold bind at 1. unfold bind at 1.
  unfold tokenize_query, call_tokenize_fn, bind at 1, get_self.
  unfold bind at 1, log at 1. cbn [ret]. unfold ret at 1.
  unfold bind at 1, call_get_scores, bind at 1, get_self. cbn [self].
  by rewrite Hnone.
Qed.

Lemma scoring_unguarded_witness :
  bm25 (self demo.fresh) = None
  ∧ get_relevant_doc "a" 1 demo.fresh = (inl AttributeError, demo.fresh).
Proof.
  assert (bm25 (self demo.fresh) = None) as Hnone by reflexivity.
  split; [exact Hnone|].
  apply (scoring_unguarded "a" [] 1 demo.fresh Hnone).
Defined.

(** X22: a truncated batch cache is not recomputed.  When both cache
    files exist and the scores file is truncated,
    [get_relevant_doc_bulk] raises [EOFError] after the one load; when
    the scores file is complete and the indices file truncated, it
    raises after the two loads.  In both cases no query is tokenized or
    scored and the files stay as they are. *)
Theorem get_relevant_doc_bulk_truncated (queries : list value) (k : Z) (w : world) :
  (fs w !! score_path w = Some Truncated →
   is_Some (fs w !! indice_path w) →
   get_relevant_doc_bulk queries k w
   = (inl EOFError, logged [EvLoad (score_path w)] w))
  ∧ (∀ doc_scores,
       fs w !! score_path w = Some (Pickle doc_scores) →
       fs w !! indice_path w = Some Truncated →
       get_relevant_doc_bulk queries k w
       = (inl EOFError, logged [EvLoad (score_path w); EvLoad (indice_path w)] w)).
Proof.
  split.
  - intros Hs Hi. rewrite get_relevant_doc_bulk_hit by (by rewrite ?Hs).
    unfold bind at 1. by rewrite pickle_load_unfold, Hs.
  - intros ds Hs Hi. rewrite get_relevant_doc_bulk_hit by (by rewrite ?Hs, ?Hi).
    unfold bind at 1. rewrite pickle_load_unfold, Hs.
    unfold bind at 1. rewrite pickle_load_unfold. cbn [fs logged]. rewrite Hi.
    by rewrite logged_logged.
Qed.

Lemma get_relevant_doc_bulk_truncated_witness :
  fs (init demo.tok "data/" demo.titles demo.texts
        {[ "data/BM25_score.bin" := Truncated;
           "data/BM25_indice.bin" := Truncated ]})
    !! "data/BM25_score.bin" = Some Truncated
  ∧ (get_relevant_doc_bulk [Str "dog"] 1
       (init demo.tok "data/" demo.titles demo.texts
          {[ "data/BM25_score.bin" := Truncated;
             "data/BM25_indice.bin" := Truncated ]})).1 = inl EOFError.
Proof.
  set (w := init demo.tok "data/" demo.titles demo.texts
              {[ "data/BM25_score.bin" := Truncated;
                 "data/BM25_indice.bin" := Truncated ]}).
  assert (fs w !! score_path w = Some Truncated) as Hs by (vm_compute; reflexivity).
  assert (is_Some (fs w !! indice_path w)) as Hi by (eexists; vm_compute; reflexivity).
  split; [exact Hs|].
  destruct (get_relevant_doc_bulk_truncated [Str "dog"] 1 w) as [H _].
  by rewrite (H Hs Hi).
Defined.

(** ** Batch retrieval, end to end *)

Lemma column_question_strings d w :
  (∀ example, example ∈ d → ∃ query, example !! "question" = Some (Str query)) →
  column d "question" w = (inr (Str <$> question_strings d), w)
  ∧ length (question_strings d) = length d
  ∧ ∀ i example query, d !! i = Some example →
      example !! "question" = Some (Str query) →
      question_strings d !! i = Some query.
Proof.
  revert w. induction d as [|example d IH]; intros w Hd; [done|].
  destruct (Hd example) as [query Hq]; [left|].
  destruct (IH w) as (Hcol & Hlen & Hlook); [intros; apply Hd; by right|].
  assert (question_strings (example :: d) = query :: question_strings d) as ->
    by (unfold question_strings; cbn [omap list_omap]; by rewrite Hq).
  split_and!.
  - unfold column in *. cbn [for_each]. unfold bind at 1.
    rewrite getitem_unfold, Hq. unfold bind at 1. by rewrite Hcol.
  - simpl. by rewrite Hlen.
  - intros [|i] example' query' Hi Hq'; simpl in *.
    + injection Hi as <-. congruence.
    + by eapply Hlook.
Qed.

(** X23: batch retrieval end to end.  With the index loaded, no
    complete batch cache, and every question a string, each row of the
    frame that [retrieve] returns names in [context_id] the top-k
    documents for the tokens of the question of its record, as
    [self.tokenize_fn] makes them and [get_scores] scores them. *)
Theorem retrieve_batch_top_k (b : BM25) (d : Dataset) (topk : Z) (w w' : world)
    (rows : list (gmap string value)) :
  bm25 (self w) = Some (ObjBM25 b) →
  ¬ (is_Some (fs w !! score_path w) ∧ is_Some (fs w !! indice_path w)) →
  (∀ example, example ∈ d → ∃ query, example !! "question" = Some (Str query)) →
  retrieve (ADataset d) topk w = (inr (DataFrame rows), w') →
  ∀ i example query row,
    d !! i = Some example →
    example !! "question" = Some (Str query) →
    rows !! i = Some row →
    row !! "context_id"
    = Some (IntArray (top_k (get_scores b (tokenize_fn (self w) query)) topk).2).
Proof.
  intros Hb Hmiss Hd. rewrite retrieve_unfold, Hb.
  destruct (column_question_strings d w Hd) as (Hcol & _ & Hlook).
  unfold bind at 1. rewrite Hcol.
  unfold bind at 1. rewrite (get_relevant_doc_bulk_computed b) by done. cbn zeta.
  destruct (Qeq_bool _ _); [done|].
  unfold bind at 1.
  destruct (for_each _ (np.enumerate d) _) as [[e|total] w3] eqn:Hrows; [done|].
  intros [= <- <-] i example query row Hi Hq Hrow. apply for_each_inr in Hrows.
  assert (np.enumerate d !! i = Some (i, example)) as Hie by by apply enumerate_lookup.
  destruct (Forall2_lookup_lr _ _ _ _ _ _ Hrows Hie Hrow) as (w4 & w5 & Hmk).
  apply make_row_retrieved in Hmk as (context_id & passages & Hids & Hrowid & _).
  rewrite Hrowid. do 2 f_equal.
  unfold indices_at in Hids. rewrite index_unfold in Hids.
  unfold batch_top_k in Hids. rewrite <- list_fmap_compose in Hids.
  rewrite list_lookup_fmap, (Hlook i example query Hi Hq) in Hids.
  by injection Hids.
Qed.

Lemma retrieve_batch_top_k_witness :
  bm25 (self demo.ready) = Some (ObjBM25 demo.index_object)
  ∧ ¬ (is_Some (fs demo.ready !! score_path demo.ready)
       ∧ is_Some (fs demo.ready !! indice_path demo.ready))
  ∧ (∀ example, example ∈ demo.validation →
       ∃ query, example !! "question" = Some (Str query))
  ∧ ∃ rows w',
      retrieve (ADataset demo.validation) 1 demo.ready = (inr (DataFrame rows), w')
      ∧ ∀ i example query row,
          demo.validation !! i = Some example →
          example !! "question" = Some (Str query) →
          rows !! i = Some row →
          row !! "context_id"
          = Some (IntArray (top_k (get_scores demo.index_object
                                     (tokenize_fn (self demo.ready) query)) 1).2).
Proof.
  assert (bm25 (self demo.ready) = Some (ObjBM25 demo.index_object)) as Hb
    by reflexivity.
  assert (¬ (is_Some (fs demo.ready !! score_path demo.ready)
             ∧ is_Some (fs demo.ready !! indice_path demo.ready))) as Hmiss.
  { intros [[f Hf] _]. vm_compute in Hf. discriminate Hf. }
  assert (∀ example, example ∈ demo.validation →
            ∃ query, example !! "question" = Some (Str query)) as Hd.
  { intros example Hin. apply elem_of_cons in Hin as [->|Hin];
      [exists "dog"; vm_compute; reflexivity | by apply elem_of_nil in Hin]. }
  split_and!; [exact Hb | exact Hmiss | exact Hd |].
  destruct (retrieve (ADataset demo.validation) 1 demo.ready)
    as [[e|[ | rows | ]] w'] eqn:H;
    try (vm_compute in H; discriminate H).
  exists rows, w'. split; [reflexivity|].
  apply (retrieve_batch_top_k demo.index_object demo.validation 1 demo.ready w' rows
           Hb Hmiss Hd H).
Defined.
